(** * train_contour: granule counting by connected-component areas

    A shallow embedding of [train_contour.py]: the count estimator
    [get_count], the boundary search and the histogram features of
    [brute_force_bounds], the table filter [read_data_frame] and the
    train/test split of [get_model].

    Numbers.  Python integers are [Z].  A NumPy [float64] is the type
    [float64] below: a finite value carried as an exact rational, or one of
    the IEEE special values [PInf], [NInf], [NaN].  Arithmetic on finite
    values is exact (binary rounding of the quotients is outside the model,
    and so is the sign of zero); arithmetic on special values follows IEEE 754,
    which is what the source relies on when the mean of an empty selection is
    taken.  Module [B64] repeats the count and the search with the quotients
    rounded as binary64 rounds them, to evaluate the scenarios bit for bit,
    and carries the rounding itself, [B64.rnd], as a function on rationals.

    A count can sit on a rounding tie (a ratio [label_area / circle_area]
    that is a half-integer exactly and not in binary64, see
    [b64_count_tie]), so the statements below are of two kinds: those that
    no rounding can change (what raises, signs, invariances, half-unit
    bounds), and those that relate the results of the program's own
    operations to each other (the search against the counts and errors it
    computed).  Where rounding is the subject, as for the sum of the
    histogram shares, it is written out with [B64.rnd]. *)

From Stdlib Require Import ZArith QArith Qround Qabs Qpower List Bool Lia Lqa.
From Stdlib Require Import Permutation Sorted SpecFloat.
Import ListNotations.

Local Open Scope Z_scope.

(** ** Python exceptions and results *)

Module Py.

Inductive exn : Type :=
| ValueError
| OverflowError
| UnboundLocalError
| IndexError.

Inductive result (A : Type) : Type :=
| Ok (a : A)
| Raise (e : exn).

Arguments Ok {A} a.
Arguments Raise {A} e.

Definition bind {A B : Type} (m : result A) (k : A -> result B) : result B :=
  match m with
  | Ok a => k a
  | Raise e => Raise e
  end.

(** [range(start, stop, step)] for a positive step. *)
Definition range (start stop step : Z) : list Z :=
  map (fun k => start + Z.of_nat k * step)
      (seq 0 (Z.to_nat ((stop - start + step - 1) / step))).

End Py.

Import Py.

Declare Scope py_scope.
Delimit Scope py_scope with py.
Notation "x <- m ;; k" := (Py.bind m (fun x => k))
  (at level 100, m at next level, right associativity) : py_scope.
Notation "' p <- m ;; k" := (Py.bind m (fun p => k))
  (at level 100, p pattern, m at next level, right associativity) : py_scope.
Local Open Scope py_scope.

(** ** NumPy: float64 values and the array operations used *)

Module Np.

Inductive float64 : Type :=
| Fin (q : Q)
| PInf
| NInf
| NaN.

Definition of_int (z : Z) : float64 := Fin (inject_Z z).

Definition Qzero (q : Q) : bool := Qeq_bool q 0%Q.
Definition Qpos (q : Q) : bool := negb (Qle_bool q 0%Q).
Definition Qnonneg (q : Q) : bool := Qle_bool 0%Q q.

(** [x / y] (true division; NumPy warns and does not raise on a zero
    divisor). *)
Definition div (x y : float64) : float64 :=
  match x, y with
  | NaN, _ | _, NaN => NaN
  | Fin a, Fin b =>
      if Qzero b then
        if Qzero a then NaN else if Qpos a then PInf else NInf
      else Fin (a / b)%Q
  | Fin _, PInf | Fin _, NInf => Fin 0%Q
  | PInf, Fin b => if Qnonneg b then PInf else NInf
  | NInf, Fin b => if Qnonneg b then NInf else PInf
  | PInf, PInf | PInf, NInf | NInf, PInf | NInf, NInf => NaN
  end.

Definition add (x y : float64) : float64 :=
  match x, y with
  | NaN, _ | _, NaN => NaN
  | Fin a, Fin b => Fin (a + b)%Q
  | PInf, NInf | NInf, PInf => NaN
  | PInf, _ | _, PInf => PInf
  | NInf, _ | _, NInf => NInf
  end.

Definition opp (x : float64) : float64 :=
  match x with
  | Fin a => Fin (- a)%Q
  | PInf => NInf
  | NInf => PInf
  | NaN => NaN
  end.

Definition sub (x y : float64) : float64 := add x (opp y).

Definition abs (x : float64) : float64 :=
  match x with
  | Fin a => Fin (Qabs a)
  | PInf | NInf => PInf
  | NaN => NaN
  end.

(** [x > y]; every comparison with NaN is false. *)
Definition gt (x y : float64) : bool :=
  match x, y with
  | NaN, _ | _, NaN => false
  | Fin a, Fin b => negb (Qle_bool a b)
  | PInf, PInf => false
  | PInf, _ => true
  | _, NInf => match x with NInf => false | _ => true end
  | _, _ => false
  end.

(** Round half to even, the rule of [np.round]. *)
Definition round_half_even (q : Q) : Z :=
  let f := Qfloor q in
  match (q - inject_Z f ?= 1 # 2)%Q with
  | Lt => f
  | Gt => f + 1
  | Eq => if Z.even f then f else f + 1
  end.

Definition round (x : float64) : float64 :=
  match x with
  | Fin q => of_int (round_half_even q)
  | _ => x
  end.

Definition sum (xs : list float64) : float64 := fold_left add xs (Fin 0%Q).

Definition isum (xs : list Z) : Z := fold_left Z.add xs 0.

(** [np.mean] of an integer array: the sum as a float, divided by the
    number of elements; the mean of the empty array is 0.0 / 0 = NaN. *)
Definition mean (xs : list Z) : float64 :=
  div (of_int (isum xs)) (of_int (Z.of_nat (length xs))).

(** Boolean-mask indexing [a[mask]]. *)
Definition take_mask {A : Type} (a : list A) (mask : list bool) : list A :=
  map fst (filter snd (combine a mask)).

(** Python's [int(x)] on a float64: truncation, [ValueError] on NaN,
    [OverflowError] on an infinity. *)
Definition to_int (x : float64) : result Z :=
  match x with
  | Fin q => Ok (Z.quot (Qnum q) (Zpos (Qden q)))
  | PInf | NInf => Raise OverflowError
  | NaN => Raise ValueError
  end.

Definition arange (start stop step : Z) : list Z := Py.range start stop step.

(** [np.in1d(ar1, ar2)]: membership mask of [ar1] in [ar2]. *)
Definition in1d (ar1 ar2 : list Z) : list bool :=
  map (fun a => existsb (Z.eqb a) ar2) ar1.

(** [mask.nonzero()[0]]: the positions where the mask is set. *)
Definition nonzero (mask : list bool) : list nat :=
  map fst (filter snd (combine (seq 0 (length mask)) mask)).

(** [np.delete(arr, obj, axis=0)] for a list of row positions. *)
Definition delete {A : Type} (arr : list A) (obj : list nat) : result (list A) :=
  if forallb (fun i => Nat.ltb i (length arr)) obj then
    Ok (map snd
          (filter (fun p => negb (existsb (Nat.eqb (fst p)) obj))
                  (combine (seq 0 (length arr)) arr)))
  else Raise IndexError.

End Np.

Import Np.

(** ** Component statistics *)

(** One row of [cv2.connectedComponentsWithStats(...)[2]]. *)
Record stat_row : Type := mk_stat {
  CC_STAT_LEFT : Z;
  CC_STAT_TOP : Z;
  CC_STAT_WIDTH : Z;
  CC_STAT_HEIGHT : Z;
  CC_STAT_AREA : Z
}.

(** [stats[1:, cv2.CC_STAT_AREA]] *)
Definition label_area_of (stats : list stat_row) : list Z :=
  map CC_STAT_AREA (skipn 1 stats).

(** ** pandas: [cut] and [value_counts] *)

Module Pd.

(** [bins.searchsorted(x, side="left")] on increasing [bins]: the number of
    leading edges strictly below [x]. *)
Fixpoint searchsorted_left (bins : list Z) (x : Z) : nat :=
  match bins with
  | [] => O
  | b :: bs => if b <? x then S (searchsorted_left bs x) else O
  end.

(** The category code [pd.cut(..., right=True, include_lowest=True)] gives
    one value: the index of the interval [(bins[k], bins[k+1]]] that holds
    it, the lowest edge counted in the first interval, and no category
    ([None], a missing value) outside the edges. *)
Definition cut_code (bins : list Z) (x : Z) : option nat :=
  let ids :=
    if match bins with b0 :: _ => x =? b0 | [] => false end
    then 1%nat else searchsorted_left bins x in
  if Nat.eqb ids (length bins) || Nat.eqb ids 0 then None
  else Some (ids - 1)%nat.

Record categorical : Type := mk_categorical {
  codes : list (option nat);
  ncat : nat
}.

Definition cut (x : list Z) (bins : list Z) : categorical :=
  {| codes := map (cut_code bins) x; ncat := (length bins - 1)%nat |}.

Definition has_code (k : nat) (c : option nat) : bool :=
  match c with
  | Some j => Nat.eqb j k
  | None => false
  end.

(** [value_counts(sort=False)] of a categorical: one count per category,
    in category order; missing values are not counted. *)
Definition value_counts (c : categorical) : list Z :=
  map (fun k => Z.of_nat (length (filter (has_code k) (codes c))))
      (seq 0 (ncat c)).

(** [value_counts(normalize=True, sort=False).to_list()]: the counts divided
    by their sum. *)
Definition value_counts_normalize (c : categorical) : list float64 :=
  let counts := value_counts c in
  map (fun n => Np.div (of_int n) (of_int (isum counts))) counts.

End Pd.

(** ** The functions of train_contour.py *)

(** A row of the label table: the two columns the pipeline reads. A missing
    [prop_count] is NaN. *)
Record label_row : Type := mk_row {
  ImageId : Z;
  prop_count : float64
}.

(** The state of the search over [r] for one image. [best_r] is a local
    variable of [brute_force_bounds] that no statement initialises. *)
Record search_state : Type := mk_state {
  min_error : float64;
  best_r : option Z
}.

Record training_data : Type := mk_training {
  bounds : list (Z * Z);
  bests : list float64;
  train_x : list (list float64);
  train_y : list (Z * Z)
}.

(** [lst[i] = v] on a Python list. *)
Fixpoint list_set {A : Type} (lst : list A) (i : nat) (v : A) : list A :=
  match lst, i with
  | [], _ => []
  | _ :: tl, O => v :: tl
  | x :: tl, S j => x :: list_set tl j v
  end.

Section TrainContour.

Variable image : Type.

(** [preprocess.read_im]: the image of an identifier. *)
Variable read_im : Z -> image.

(** Resizing, cutting, thresholding and labelling of [get_stats], up to
    [cv2.connectedComponentsWithStats(mask, 4)[2]]. *)
Variable connected_components : image -> list stat_row.

Definition get_stats (im : image) : list stat_row * list Z :=
  let stats := connected_components im in
  let label_area := label_area_of stats in
  (stats, label_area).

(** The first argument of [get_count]: an image when [res] is true, the
    areas of its components when [res] is false. *)
Inductive count_input : Type :=
| Image (im : image)
| Areas (label_area : list Z).

Definition get_count (im : count_input) (l r : Z)
  : result (Z * option (list stat_row)) :=
  let '(stats, label_area) :=
    match im with
    | Image i => let '(stats, label_area) := get_stats i in (Some stats, label_area)
    | Areas a => (None, a)
    end in
  let min_area := l in
  let max_area := r in
  let singular_mask :=
    map (fun a => (min_area <? a) && (a <=? max_area)) label_area in
  let circle_area := Np.mean (take_mask label_area singular_mask) in
  found <- to_int (Np.sum (map (fun a => Np.round (Np.div (of_int a) circle_area))
                               label_area)) ;;
  Ok (found, stats).

Definition precompute_stats (df : list label_row)
  : list (list Z) * list float64 * list Z :=
  let labels := map prop_count df in
  let imageids := map ImageId df in
  let images := map (fun im => snd (get_stats (read_im im))) (map ImageId df) in
  (images, labels, imageids).

(** [abs(found - true) / true] *)
Definition relative_error (found : Z) (true : float64) : float64 :=
  Np.div (Np.abs (Np.sub (of_int found) true)) true.

(** The [try] statement of the search: [ValueError] gives [found = 0], any
    other exception goes on. *)
Definition try_count (im : list Z) (l r : Z) : result Z :=
  match get_count (Areas im) l r with
  | Ok (found, _) => Ok found
  | Raise ValueError => Ok 0
  | Raise e => Raise e
  end.

(** One turn of the loop over [r]. *)
Definition scan_step (im : list Z) (lab : float64) (l : Z)
  (st : search_state) (r : Z) : result search_state :=
  found <- try_count im l r ;;
  let true := lab in
  let error := relative_error found true in
  if Np.gt (min_error st) error
  then Ok {| min_error := error; best_r := Some r |}
  else Ok st.

Fixpoint scan (im : list Z) (lab : float64) (l : Z)
  (rs : list Z) (st : search_state) : result search_state :=
  match rs with
  | [] => Ok st
  | r :: rs' => st' <- scan_step im lab l st r ;; scan im lab l rs' st'
  end.

(** The search for one image: [min_error] and [l] are set anew, [best_r]
    is whatever the image before left. The result is [(l, best_r)] and
    [min_error], as stored in [bounds] and [bests]. *)
Definition search (im : list Z) (lab : float64) (prev : option Z)
  : result (Z * Z * float64) :=
  let l := 30 in
  st <- scan im lab l (Py.range (l + 10) 1000 10)
             {| min_error := of_int 100000; best_r := prev |} ;;
  match best_r st with
  | Some r => Ok (l, r, min_error st)
  | None => Raise UnboundLocalError
  end.

(** The distribution of the areas below 1000 over the bins of
    [np.arange(0, 1000, 10)]: the feature vector of one image. *)
Definition build_features (stats : list stat_row) : list float64 :=
  let p := stats in
  let out :=
    Pd.cut (map CC_STAT_AREA (filter (fun row => CC_STAT_AREA row <? 1000) p))
           (Np.arange 0 1000 10) in
  Pd.value_counts_normalize out.

Fixpoint brute_force_loop (id_ : nat) (rows : list (list Z * float64 * Z))
  (prev : option Z) (acc : training_data) : result training_data :=
  match rows with
  | [] => Ok acc
  | (im, lab, imid) :: rest =>
      ' (l, best_r, min_error) <- search im lab prev ;;
      ' (found, stats) <- get_count (Image (read_im imid)) 0 1000 ;;
      let p := match stats with Some s => s | None => [] end in
      brute_force_loop (S id_) rest (Some best_r)
        {| bounds := list_set (bounds acc) id_ (l, best_r);
           bests := list_set (bests acc) id_ min_error;
           train_x := train_x acc ++ [build_features p];
           train_y := train_y acc ++ [(l, best_r)] |}
  end.

Definition brute_force_bounds (images : list (list Z)) (labels : list float64)
  (imageids : list Z)
  : result (list (Z * Z) * list (list float64) * list (Z * Z)) :=
  acc <- brute_force_loop 0 (combine (combine images labels) imageids) None
           {| bounds := repeat (1, 1) (length images);
              bests := repeat (of_int 1) (length images);
              train_x := [];
              train_y := [] |} ;;
  Ok (bounds acc, train_x acc, train_y acc).

Definition isna (x : float64) : bool :=
  match x with NaN => true | _ => false end.

(** The columns named in [drop_columns] are index columns that nothing
    reads; a [label_row] does not carry them. *)
Definition read_data_frame (csv_file : list label_row) (drop_images : list Z)
  : list label_row :=
  let df := csv_file in
  let df := filter (fun row => negb (isna (prop_count row))) df in
  let df := filter (fun row => negb (existsb (Z.eqb (ImageId row)) drop_images)) df in
  df.

(** [get_model] up to the call of [fit]: the rows handed to the regressor. *)
Definition fit_arguments (csv_file : list label_row) (drop_images test_ids : list Z)
  : result (list (list float64) * list (Z * Z)) :=
  let df_augmented := read_data_frame csv_file drop_images in
  let '(images_aug_, labels_aug_, imageids_aug_) := precompute_stats df_augmented in
  let imageids_aug_ := map ImageId df_augmented in
  ' (bounds_aug_, train_x_aug_, train_y_aug_) <-
      brute_force_bounds images_aug_ labels_aug_ imageids_aug_ ;;
  let test_indices := Np.nonzero (Np.in1d (map ImageId df_augmented) test_ids) in
  deleted_test_x <- Np.delete train_x_aug_ test_indices ;;
  deleted_test_y <- Np.delete train_y_aug_ test_indices ;;
  let x_train_aug := deleted_test_x in
  let y_train_aug := deleted_test_y in
  Ok (x_train_aug, y_train_aug).

Definition drop_images_const : list Z :=
  [104; 908; 906; 907; 905; 904] ++ Py.range 905 1000 1.

Definition test_ids_const : list Z :=
  [776; 675; 42; 3; 714; 312; 127; 653; 592; 205; 179; 191].

Section Fit.

Variable regressor : Type.

(** [MultiOutputRegressor(AdaBoostRegressor(random_state=10, n_estimators=5)).fit],
    which returns the fitted regressor or raises (scikit-learn validates its
    arguments and raises [ValueError] on arrays it refuses, empty ones among
    them). *)
Variable fit : list (list float64) -> list (Z * Z) -> result regressor.

Definition get_model (hand_marked_labels : list label_row) : result regressor :=
  ' (x_train_aug, y_train_aug) <-
      fit_arguments hand_marked_labels drop_images_const test_ids_const ;;
  clf <- fit x_train_aug y_train_aug ;;
  Ok clf.

End Fit.

End TrainContour.

Arguments Image {image} im.
Arguments Areas {image} label_area.
Arguments get_stats {image} connected_components im.
Arguments get_count {image} connected_components im l r.
Arguments precompute_stats {image} read_im connected_components df.
Arguments try_count {image} connected_components im l r.
Arguments scan_step {image} connected_components im lab l st r.
Arguments scan {image} connected_components im lab l rs st.
Arguments search {image} connected_components im lab prev.
Arguments brute_force_loop {image} read_im connected_components id_ rows prev acc.
Arguments brute_force_bounds {image} read_im connected_components images labels imageids.
Arguments fit_arguments {image} read_im connected_components csv_file drop_images test_ids.
Arguments get_model {image} read_im connected_components {regressor} fit hand_marked_labels.

(** ** The count and the search in binary64

    The same computation with the quotients rounded as IEEE 754 binary64
    rounds them ([SpecFloat], precision 53, maximal exponent 1024): the
    mean, the ratios [label_area / circle_area] and the relative error.
    The sums are sums of integers, exact in binary64 below 2^53, and stay
    in [Z]. It serves to evaluate the scenarios bit for bit.  The rounding
    of a quotient is also given as a function on rationals, [rnd], for the
    statements in which the rounding error is bounded. *)

Module B64.

Definition prec : Z := 53.
Definition emax : Z := 1024.

Definition of_int (z : Z) : spec_float := binary_normalize prec emax z 0 false.

Definition div (x y : spec_float) : spec_float := SFdiv prec emax x y.

Definition sub (x y : spec_float) : spec_float := SFsub prec emax x y.

Definition gt (x y : spec_float) : bool := SFltb y x.

(** [np.round] of a binary64 value: the nearest integer, ties to even. *)
Definition round (x : spec_float) : float64 :=
  match x with
  | S754_zero _ => Np.of_int 0
  | S754_infinity s => if s then NInf else PInf
  | S754_nan => NaN
  | S754_finite s m e =>
      let n :=
        match e with
        | Zneg p =>
            let d := 2 ^ Zpos p in
            let q := Zpos m / d in
            match 2 * (Zpos m mod d) ?= d with
            | Lt => q
            | Gt => q + 1
            | Eq => if Z.even q then q else q + 1
            end
        | _ => Zpos m * 2 ^ e
        end in
      Np.of_int (if s then - n else n)
  end.

Definition mean (xs : list Z) : spec_float :=
  div (of_int (isum xs)) (of_int (Z.of_nat (length xs))).

Definition get_count (label_area : list Z) (l r : Z) : result Z :=
  let singular_mask := map (fun a => (l <? a) && (a <=? r)) label_area in
  let circle_area := mean (take_mask label_area singular_mask) in
  to_int (Np.sum (map (fun a => round (div (of_int a) circle_area)) label_area)).

Definition try_count (im : list Z) (l r : Z) : result Z :=
  match get_count im l r with
  | Ok found => Ok found
  | Raise ValueError => Ok 0
  | Raise e => Raise e
  end.

Definition relative_error (found : Z) (true : spec_float) : spec_float :=
  div (SFabs (sub (of_int found) true)) true.

Fixpoint scan (im : list Z) (lab : spec_float) (l : Z) (rs : list Z)
  (st : spec_float * option Z) : result (spec_float * option Z) :=
  match rs with
  | [] => Ok st
  | r :: rs' =>
      found <- try_count im l r ;;
      let error := relative_error found lab in
      scan im lab l rs' (if gt (fst st) error then (error, Some r) else st)
  end.

Definition search (im : list Z) (lab : spec_float) (prev : option Z)
  : result (Z * Z * spec_float) :=
  let l := 30 in
  st <- scan im lab l (Py.range (l + 10) 1000 10) (of_int 100000, prev) ;;
  match snd st with
  | Some r => Ok (l, r, fst st)
  | None => Raise UnboundLocalError
  end.

(** The shares of [value_counts(normalize=True)], each count divided by the
    sum of the counts in binary64. *)
Definition build_features (stats : list stat_row) : list spec_float :=
  let p := stats in
  let out :=
    Pd.cut (map CC_STAT_AREA (filter (fun row => CC_STAT_AREA row <? 1000) p))
           (Np.arange 0 1000 10) in
  let counts := Pd.value_counts out in
  map (fun n => div (of_int n) (of_int (isum counts))) counts.

(** The rational a binary64 value stands for. *)
Definition to_Q (x : spec_float) : option Q :=
  match x with
  | S754_zero _ => Some 0%Q
  | S754_finite s m e =>
      Some ((if s then - inject_Z (Zpos m) else inject_Z (Zpos m)) * 2 ^ e)%Q
  | _ => None
  end.

(** The binary exponent of a positive rational: the [e] with
    [2 ^ e <= q < 2 ^ (e + 1)]. *)
Definition exponent (q : Q) : Z :=
  let k := Z.log2 (Qnum q) - Z.log2 (Zpos (Qden q)) in
  if Qle_bool (2 ^ k) q then k else k - 1.

Definition rnd_pos (q : Q) : Q :=
  let u := (2 ^ (exponent q - 52))%Q in
  (inject_Z (Np.round_half_even (q / u)) * u)%Q.

(** Rounding to binary64: the nearest number with a significand of 53 bits,
    ties to the even significand.  The exponent is not bounded, which leaves
    out overflow and the subnormal numbers, below 2 ^ -1022; a quotient of
    two machine integers is not in their range. *)
Definition rnd (q : Q) : Q :=
  match (q ?= 0)%Q with
  | Eq => 0%Q
  | Gt => rnd_pos q
  | Lt => (- rnd_pos (- q))%Q
  end.

(** [rnd] against the division of [SpecFloat], on a quotient of integers. *)
Definition div_agrees (c t : Z) : bool :=
  match to_Q (div (of_int c) (of_int t)) with
  | Some q => Qeq_bool q (rnd (inject_Z c / inject_Z t))
  | None => false
  end.

End B64.

(** ** Notions used in the statements *)

(** Equality of float64 values: finite values are compared as rationals. *)
Definition feq (x y : float64) : Prop :=
  match x, y with
  | Fin a, Fin b => (a == b)%Q
  | PInf, PInf | NInf, NInf | NaN, NaN => True
  | _, _ => False
  end.

(** The window [(l, r]] of [get_count]. *)
Definition in_window (l r a : Z) : bool := (l <? a) && (a <=? r).

Definition selected (l r : Z) (label_area : list Z) : list Z :=
  filter (in_window l r) label_area.

(** The number of unit objects a component of area [a] stands for, for a
    unit area [m]. *)
Definition unit_count (m : Q) (a : Z) : Z := round_half_even (inject_Z a / m).

(** The unit area: the mean of the selected areas, when there is one. *)
Definition circle_area (l r : Z) (label_area : list Z) : Q :=
  (inject_Z (isum (selected l r label_area))
   / inject_Z (Z.of_nat (length (selected l r label_area))))%Q.

(** The count the search uses for a candidate [r]: 0 when the selection is
    empty, the sum of the unit counts otherwise. *)
Definition estimate (V : list Z) (l r : Z) : Z :=
  match selected l r V with
  | [] => 0
  | _ :: _ => isum (map (unit_count (circle_area l r V)) V)
  end.

(** The relative error of a count against a positive finite label. *)
Definition rel_err (found : Z) (t : Q) : Q := (Qabs (inject_Z found - t) / t)%Q.

(** The candidates of the search. *)
Definition grid : list Z := Py.range 40 1000 10.

(** What the loop over the candidates [rs] leaves, from a running minimum
    [m0] and a best candidate [b0]: either nothing was below [m0] and the
    state is as before, or the state holds the first candidate of least
    error. *)
Inductive scan_result (e : Z -> Q) (rs : list Z) (m0 : Q) (b0 : option Z)
  : search_state -> Prop :=
| scan_kept :
    (forall r, In r rs -> (m0 <= e r)%Q) ->
    scan_result e rs m0 b0 {| min_error := Fin m0; best_r := b0 |}
| scan_updated (pre post : list Z) (r : Z) :
    rs = pre ++ r :: post ->
    (e r < m0)%Q ->
    (forall r', In r' pre -> (e r < e r')%Q) ->
    (forall r', In r' post -> (e r <= e r')%Q) ->
    scan_result e rs m0 b0 {| min_error := Fin (e r); best_r := Some r |}.

(** The edges 0, 10, ..., 990 of the histogram. *)
Definition bin_edges : list Z := Np.arange 0 1000 10.

(** The bin of an area between 0 and 990: [0, 10] is bin 0, (10, 20] is
    bin 1, ..., (980, 990] is bin 98. *)
Definition bin_of (a : Z) : nat := if a =? 0 then O else Z.to_nat ((a - 1) / 10).

(** Bin [k] of the histogram: [0, 10] for [k = 0], (10k, 10k + 10] after. *)
Definition in_bin (k : nat) (a : Z) : bool :=
  ((a =? 0) && Nat.eqb k 0)
  || ((10 * Z.of_nat k <? a) && (a <=? 10 * Z.of_nat k + 10)).

(** The number of components whose area lies in bin [k]. *)
Definition bin_count (stats : list stat_row) (k : nat) : Z :=
  Z.of_nat (length (filter (fun row => in_bin k (CC_STAT_AREA row)) stats)).

(** The sum of rationals, exact. *)
Definition qsum (xs : list Q) : Q := fold_right Qplus 0%Q xs.

(** The unit roundoff of binary64, 2 ^ -53. *)
Definition unit_roundoff : Q := (1 # 9007199254740992)%Q.

(** The rows of a matrix built along the table whose identifier is not a
    test identifier. *)
Definition rows_outside {A : Type} (test_ids : list Z) (ids : list Z)
  (rows : list A) : list (Z * A) :=
  filter (fun p => negb (existsb (Z.eqb (fst p)) test_ids)) (combine ids rows).

(** An image whose components have areas >= 1, one of them at most 1000. *)
Definition countable_image {image : Type} (read_im : Z -> image)
  (connected_components : image -> list stat_row) (imid : Z) : Prop :=
  Forall (fun a => 1 <= a) (label_area_of (connected_components (read_im imid))) /\
  Exists (fun a => 0 < a <= 1000)
         (label_area_of (connected_components (read_im imid))).

(** ** The scenarios

    An image stands here for the statistics of its components, so that
    [connected_components] is the identity. *)

Definition image_stats (im : list stat_row) : list stat_row := im.

(** The Area Vector of the first scenario. *)
Definition scenario_areas : list Z := [50; 55; 52; 300].

(** A 40 x 30 image with the four components of [scenario_areas]. *)
Definition scenario_image : list stat_row :=
  [mk_stat 0 0 40 30 743; mk_stat 1 1 8 8 50; mk_stat 12 2 8 8 55;
   mk_stat 1 14 8 8 52; mk_stat 14 12 20 16 300].

(** A 2000 x 1601 image with a small component and one that covers most of
    it. *)
Definition large_areas : list Z := [31; 3200000].

Definition large_image : list stat_row :=
  [mk_stat 0 0 2000 1601 1969; mk_stat 5 5 7 5 31; mk_stat 0 0 2000 1601 3200000].

(** A 100 x 100 image, nearly all foreground: the background, row 0, has
    area 500. *)
Definition dark_image : list stat_row :=
  [mk_stat 0 0 100 100 500; mk_stat 3 4 9 7 45; mk_stat 0 0 100 100 9455].

(** An image whose only component below 1000 has area 995. *)
Definition edge_image : list stat_row :=
  [mk_stat 0 0 100 100 9005; mk_stat 10 10 40 30 995].

Definition image_store (id : Z) : list stat_row :=
  if id =? 1 then scenario_image
  else if id =? 2 then large_image
  else dark_image.

Definition example_table : list label_row :=
  [mk_row 1 (of_int 5); mk_row 2 NaN; mk_row 104 (of_int 3);
   mk_row 3 (of_int 7); mk_row 4 (of_int 2)].

Definition example_x : list (list float64) :=
  Eval vm_compute in
    match fit_arguments image_store image_stats
            example_table drop_images_const test_ids_const with
    | Ok (x, _) => x
    | Raise _ => []
    end.

Definition example_y : list (Z * Z) :=
  Eval vm_compute in
    match fit_arguments image_store image_stats
            example_table drop_images_const test_ids_const with
    | Ok (_, y) => y
    | Raise _ => []
    end.

(** Components that are all noise (area at most 30) or larger than every
    candidate. *)
Definition noise_areas : list Z := [5; 12; 2000].

(** A 100 x 100 image with one component, of area 5000. *)
Definition blob_image : list stat_row :=
  [mk_stat 0 0 100 100 5000; mk_stat 10 10 80 70 5000].

(** The image of [scenario_image] with its rows in another order and other
    bounding boxes. *)
Definition shuffled_image : list stat_row :=
  [mk_stat 2 2 20 16 300; mk_stat 0 0 40 30 743; mk_stat 0 0 9 9 52;
   mk_stat 5 5 7 8 50; mk_stat 9 9 11 5 55].

Definition blob_store (id : Z) : list stat_row := blob_image.

(** Three Area Vectors for two labels: [zip] stops after two images. *)
Definition short_images : list (list Z) := [scenario_areas; [45; 9455]; large_areas].

Definition short_labels : list float64 := [of_int 5; of_int 2].

Definition short_ids : list Z := [1; 3; 2].

Definition short_bounds : list (Z * Z) :=
  Eval vm_compute in
    match brute_force_bounds image_store image_stats
            short_images short_labels short_ids with
    | Ok (b, _, _) => b
    | Raise _ => []
    end.

Definition short_train_x : list (list float64) :=
  Eval vm_compute in
    match brute_force_bounds image_store image_stats
            short_images short_labels short_ids with
    | Ok (_, tx, _) => tx
    | Raise _ => []
    end.

Definition short_train_y : list (Z * Z) :=
  Eval vm_compute in
    match brute_force_bounds image_store image_stats
            short_images short_labels short_ids with
    | Ok (_, _, ty) => ty
    | Raise _ => []
    end.

(** A table whose rows are all left out: a missing label and a dropped
    identifier. *)
Definition dropped_table : list label_row := [mk_row 5 NaN; mk_row 104 (of_int 3)].

(** A regressor that refuses empty arrays, as scikit-learn's validation
    does, and otherwise remembers what it was fitted on. *)
Definition strict_fit (x : list (list float64)) (y : list (Z * Z))
  : result (list (list float64) * list (Z * Z)) :=
  match x with
  | [] => Raise ValueError
  | _ :: _ => Ok (x, y)
  end.

(** Areas with a ratio on a rounding tie: the mean of 33, 33 and 34 is
    100 / 3, and 250 / (100 / 3) is 7.5. *)
Definition tie_areas : list Z := [33; 33; 34; 250].

Definition tie_search_areas : list Z := [33; 33; 34; 250; 45].

(** 0.4 in binary64: 0x3FD999999999999A. *)
Definition b64_two_fifths : spec_float :=
  S754_finite false 7205759403792794 (-54).

(** ** Properties of the NumPy operations *)

Lemma take_mask_filter {A : Type} (f : A -> bool) (a : list A) :
  take_mask a (map f a) = filter f a.
Proof.
  unfold take_mask.
  induction a as [|x a IH]; simpl; [reflexivity|].
  destruct (f x); simpl; now rewrite IH.
Qed.

Lemma fold_add_shift (xs : list Z) (a : Z) :
  fold_left Z.add xs a = a + isum xs.
Proof.
  unfold isum. revert a.
  induction xs as [|x xs IH]; intros a; simpl; [lia|].
  rewrite (IH (a + x)), (IH x). lia.
Qed.

Lemma isum_cons (x : Z) (xs : list Z) : isum (x :: xs) = x + isum xs.
Proof. unfold isum at 1. simpl. apply fold_add_shift. Qed.

Lemma isum_permutation (xs ys : list Z) :
  Permutation xs ys -> isum xs = isum ys.
Proof.
  induction 1; rewrite ?isum_cons; lia.
Qed.

Lemma isum_lower_bound (xs : list Z) :
  Forall (fun a => 1 <= a) xs -> Z.of_nat (length xs) <= isum xs.
Proof.
  induction 1 as [|x xs Hx _ IH]; [reflexivity|].
  rewrite isum_cons. simpl length. lia.
Qed.

Lemma isum_nonneg (xs : list Z) :
  Forall (fun a => 0 <= a) xs -> 0 <= isum xs.
Proof.
  induction 1 as [|x xs Hx _ IH]; [reflexivity|].
  rewrite isum_cons. lia.
Qed.

Lemma isum_member_le (xs : list Z) (n : Z) :
  Forall (fun a => 0 <= a) xs -> In n xs -> n <= isum xs.
Proof.
  induction 1 as [|x xs Hx Hxs IH]; intros Hin; [contradiction|].
  rewrite isum_cons. pose proof (isum_nonneg xs Hxs).
  destruct Hin as [-> | Hin]; [lia | specialize (IH Hin); lia].
Qed.

Lemma add_of_int (a b : Z) : Np.add (of_int a) (of_int b) = of_int (a + b).
Proof.
  unfold of_int, inject_Z, Np.add, Qplus. simpl.
  do 2 f_equal. lia.
Qed.

Lemma fold_add_of_int (zs : list Z) (a : Z) :
  fold_left Np.add (map of_int zs) (of_int a) = of_int (fold_left Z.add zs a).
Proof.
  revert a. induction zs as [|z zs IH]; intros a; cbn [fold_left map]; [reflexivity|].
  now rewrite add_of_int, IH.
Qed.

Lemma sum_of_int (zs : list Z) : Np.sum (map of_int zs) = of_int (isum zs).
Proof. apply (fold_add_of_int zs 0). Qed.

Lemma to_int_of_int (z : Z) : to_int (of_int z) = Ok z.
Proof. simpl. now rewrite Z.quot_1_r. Qed.

Lemma fold_add_NaN (xs : list float64) : fold_left Np.add xs NaN = NaN.
Proof. induction xs as [|x xs IH]; simpl; [reflexivity | exact IH]. Qed.

Lemma add_NaN_r (x : float64) : Np.add x NaN = NaN.
Proof. now destruct x. Qed.

Lemma div_NaN_r (x : float64) : Np.div x NaN = NaN.
Proof. now destruct x. Qed.

Lemma Qzero_inject_Z (z : Z) : Qzero (inject_Z z) = false <-> z <> 0.
Proof.
  unfold Qzero. split.
  - intros H ->. discriminate H.
  - intros H. destruct (Qeq_bool (inject_Z z) 0) eqn:E; [|reflexivity].
    apply Qeq_bool_eq in E. unfold Qeq in E. simpl in E. lia.
Qed.

Lemma Qzero_false (q : Q) : Qzero q = false <-> ~ (q == 0)%Q.
Proof.
  unfold Qzero. split.
  - intros H E. apply Qeq_eq_bool in E. congruence.
  - intros H. destruct (Qeq_bool q 0) eqn:E; [|reflexivity].
    apply Qeq_bool_eq in E. contradiction.
Qed.

(** The mean of a non-empty array. *)
Lemma mean_nonempty (xs : list Z) :
  xs <> [] ->
  Np.mean xs = Fin (inject_Z (isum xs) / inject_Z (Z.of_nat (length xs)))%Q.
Proof.
  intros Hne. unfold Np.mean, of_int, Np.div.
  assert (H : Qzero (inject_Z (Z.of_nat (length xs))) = false).
  { apply Qzero_inject_Z. destruct xs; [contradiction | simpl; lia]. }
  now rewrite H.
Qed.

Lemma mean_empty : Np.mean [] = NaN.
Proof. reflexivity. Qed.

Lemma mean_positive (xs : list Z) :
  xs <> [] -> Forall (fun a => 1 <= a) xs ->
  (0 < inject_Z (isum xs) / inject_Z (Z.of_nat (length xs)))%Q.
Proof.
  intros Hne Hpos.
  pose proof (isum_lower_bound xs Hpos) as Hs.
  assert (Hn : 0 < Z.of_nat (length xs)) by (destruct xs; [contradiction | simpl; lia]).
  apply Qlt_shift_div_l.
  - change 0%Q with (inject_Z 0). rewrite <- Zlt_Qlt. exact Hn.
  - rewrite Qmult_0_l. change 0%Q with (inject_Z 0). rewrite <- Zlt_Qlt. lia.
Qed.

Lemma round_half_even_bounds (q : Q) :
  Qfloor q <= round_half_even q <= Qfloor q + 1.
Proof.
  unfold round_half_even.
  destruct (q - inject_Z (Qfloor q) ?= 1 # 2)%Q; try destruct (Z.even _); lia.
Qed.

Lemma round_half_even_nonneg (q : Q) : (0 <= q)%Q -> 0 <= round_half_even q.
Proof.
  intros H. pose proof (round_half_even_bounds q) as [Hl _].
  apply Qfloor_resp_le in H. change (Qfloor 0) with 0 in H. lia.
Qed.

Lemma round_half_even_Qeq (p q : Q) :
  (p == q)%Q -> round_half_even p = round_half_even q.
Proof.
  intros E. unfold round_half_even.
  assert (Hf : Qfloor p = Qfloor q) by now rewrite E.
  rewrite Hf.
  assert (Hc : (p - inject_Z (Qfloor q) ?= 1 # 2)%Q
               = (q - inject_Z (Qfloor q) ?= 1 # 2)%Q) by now rewrite E.
  now rewrite Hc.
Qed.

(** Rounding moves a number by at most one half. *)
Lemma round_half_even_close (q : Q) :
  (Qabs (inject_Z (round_half_even q) - q) <= 1 # 2)%Q.
Proof.
  pose proof (Qfloor_le q) as Hlo. pose proof (Qlt_floor q) as Hhi.
  rewrite inject_Z_plus in Hhi. change (inject_Z 1) with 1%Q in Hhi.
  apply Qabs_Qle_condition. unfold round_half_even.
  destruct (q - inject_Z (Qfloor q) ?= 1 # 2)%Q eqn:C.
  - apply Qeq_alt in C.
    destruct (Z.even (Qfloor q));
      rewrite ?inject_Z_plus; change (inject_Z 1) with 1%Q; lra.
  - apply Qlt_alt in C. lra.
  - apply Qgt_alt in C. rewrite inject_Z_plus. change (inject_Z 1) with 1%Q. lra.
Qed.

Lemma isum_zeros (xs : list Z) : Forall (fun a => a = 0) xs -> isum xs = 0.
Proof.
  induction 1 as [|x xs Hx _ IH]; [reflexivity|].
  rewrite isum_cons. lia.
Qed.

(** ** Rounding to binary64 *)

Lemma two_neq_0 : ~ (2 == 0)%Q.
Proof. discriminate. Qed.

Lemma Qpower2_pos (z : Z) : (0 < 2 ^ z)%Q.
Proof. apply Qpower_0_lt. reflexivity. Qed.

Lemma exponent_bounds (q : Q) :
  (0 < q)%Q -> (2 ^ B64.exponent q <= q /\ q < 2 ^ (B64.exponent q + 1))%Q.
Proof.
  intros Hq. destruct q as [n d].
  assert (Hn : 0 < n) by (unfold Qlt in Hq; simpl in Hq; lia).
  unfold B64.exponent. cbn [Qnum Qden].
  set (a := Z.log2 n). set (b := Z.log2 (Zpos d)).
  destruct (Z.log2_spec n Hn) as [Ha1 Ha2]. fold a in Ha1, Ha2.
  destruct (Z.log2_spec (Zpos d) eq_refl) as [Hb1 Hb2]. fold b in Hb1, Hb2.
  assert (Ha : 0 <= a) by apply Z.log2_nonneg.
  assert (Hb : 0 <= b) by apply Z.log2_nonneg.
  assert (Hd : (0 < inject_Z (Zpos d))%Q) by reflexivity.
  assert (Eq : (n # d == inject_Z n / inject_Z (Zpos d))%Q) by apply Qmake_Qdiv.
  assert (Hup : (n # d < 2 ^ (a - b + 1))%Q).
  { rewrite Eq. apply Qlt_shift_div_r; [exact Hd|].
    apply Qlt_le_trans with (inject_Z (2 ^ Z.succ a)).
    - now rewrite <- Zlt_Qlt.
    - rewrite Zpower_Qpower by lia. change (inject_Z 2) with 2%Q.
      replace (Z.succ a) with ((a - b + 1) + b) by lia.
      rewrite Qpower_plus by exact two_neq_0.
      apply Qmult_le_l; [apply Qpower2_pos|].
      rewrite <- (Zpower_Qpower 2 b) by lia. now rewrite <- Zle_Qle. }
  assert (Hlo : (2 ^ (a - b - 1) < n # d)%Q).
  { rewrite Eq. apply Qlt_shift_div_l; [exact Hd|].
    apply Qlt_le_trans with (inject_Z (2 ^ a)).
    - rewrite Zpower_Qpower by lia. change (inject_Z 2) with 2%Q.
      replace a with ((a - b - 1) + Z.succ b) at 2 by lia.
      rewrite Qpower_plus by exact two_neq_0.
      apply Qmult_lt_l; [apply Qpower2_pos|].
      rewrite <- (Zpower_Qpower 2 (Z.succ b)) by lia. now rewrite <- Zlt_Qlt.
    - now rewrite <- Zle_Qle. }
  destruct (Qle_bool (2 ^ (a - b)) (n # d)) eqn:E.
  - apply Qle_bool_iff in E. split; assumption.
  - split.
    + now apply Qlt_le_weak.
    + replace (a - b - 1 + 1) with (a - b) by lia.
      apply Qnot_le_lt. intros H. apply Qle_bool_iff in H. congruence.
Qed.

Lemma round_half_even_le (q : Q) (n : Z) :
  (q <= inject_Z n)%Q -> round_half_even q <= n.
Proof.
  intros H.
  assert (Hf : Qfloor q <= n).
  { rewrite <- (Qfloor_Z n). now apply Qfloor_resp_le. }
  unfold round_half_even.
  destruct (Z.eq_dec (Qfloor q) n) as [E | NE].
  - assert (C : (q - inject_Z (Qfloor q) ?= 1 # 2)%Q = Lt).
    { apply (proj1 (Qlt_alt _ _)). rewrite E. lra. }
    rewrite C. lia.
  - destruct (q - inject_Z (Qfloor q) ?= 1 # 2)%Q; [destruct (Z.even _)| |]; lia.
Qed.

Lemma Qpower2_split (a b : Z) : (2 ^ (a + b) == 2 ^ a * 2 ^ b)%Q.
Proof. apply Qpower_plus. exact two_neq_0. Qed.

Lemma rnd_pos_error (q : Q) :
  (0 < q)%Q -> (Qabs (B64.rnd_pos q - q) <= q * unit_roundoff)%Q.
Proof.
  intros Hq. destruct (exponent_bounds q Hq) as [Hlo _].
  unfold B64.rnd_pos. cbv zeta. set (e := B64.exponent q) in *.
  set (u := (2 ^ (e - 52))%Q).
  assert (Hu : (0 < u)%Q) by apply Qpower2_pos.
  assert (Hu2 : (u == 2 ^ e * (1 # 4503599627370496))%Q).
  { unfold u. replace (e - 52) with (e + (-52)) by lia.
    rewrite Qpower2_split. reflexivity. }
  pose proof (round_half_even_close (q / u)) as Hc.
  set (k := inject_Z (round_half_even (q / u))) in *.
  apply Qabs_Qle_condition in Hc. destruct Hc as [Hc1 Hc2].
  assert (Hq' : (q == q / u * u)%Q) by (field; lra).
  assert (H1 : (k * u - q == (k - q / u) * u)%Q) by (field; lra).
  assert (Hm1 : ((k - q / u) * u <= (1 # 2) * u)%Q) by (apply Qmult_le_compat_r; lra).
  assert (Hm2 : (- (1 # 2) * u <= (k - q / u) * u)%Q) by (apply Qmult_le_compat_r; lra).
  assert (Hb : ((1 # 2) * u <= q * unit_roundoff)%Q).
  { rewrite Hu2. unfold unit_roundoff.
    setoid_replace ((1 # 2) * (2 ^ e * (1 # 4503599627370496)))%Q
      with (2 ^ e * (1 # 9007199254740992))%Q by ring.
    apply Qmult_le_compat_r; [exact Hlo | discriminate]. }
  apply Qabs_Qle_condition. rewrite H1. split; lra.
Qed.

Lemma rnd_pos_nonneg (q : Q) : (0 < q)%Q -> (0 <= B64.rnd_pos q)%Q.
Proof.
  intros Hq. unfold B64.rnd_pos. cbv zeta.
  apply Qmult_le_0_compat; [|apply Qlt_le_weak, Qpower2_pos].
  change 0%Q with (inject_Z 0). rewrite <- Zle_Qle.
  apply round_half_even_nonneg.
  apply Qle_shift_div_l; [apply Qpower2_pos|]. lra.
Qed.

Lemma rnd_pos_le_1 (q : Q) : (0 < q)%Q -> (q <= 1)%Q -> (B64.rnd_pos q <= 1)%Q.
Proof.
  intros Hq Hq1. destruct (exponent_bounds q Hq) as [Hlo _].
  unfold B64.rnd_pos. cbv zeta. set (e := B64.exponent q) in *.
  assert (He : e <= 0).
  { destruct (Z_le_gt_dec e 0) as [H | H]; [exact H|]. exfalso.
    assert (H2 : (2 ^ 1 <= 2 ^ e)%Q)
      by (apply Qpower_le_compat_l; [lia | discriminate]).
    change (2 ^ 1)%Q with 2%Q in H2. lra. }
  set (u := (2 ^ (e - 52))%Q).
  assert (Hu : (0 < u)%Q) by apply Qpower2_pos.
  assert (HN : (inject_Z (2 ^ (52 - e)) * u == 1)%Q).
  { rewrite Zpower_Qpower by lia. change (inject_Z 2) with 2%Q. unfold u.
    rewrite <- Qpower2_split. replace (52 - e + (e - 52)) with 0 by lia.
    reflexivity. }
  assert (Hle : round_half_even (q / u) <= 2 ^ (52 - e)).
  { apply round_half_even_le. apply Qle_shift_div_r; [exact Hu|].
    rewrite HN. exact Hq1. }
  rewrite <- HN. apply Qmult_le_compat_r; [|lra]. now rewrite <- Zle_Qle.
Qed.

(** Rounding to binary64 moves a number by at most 2 ^ -53 of itself. *)
Lemma rnd_error (q : Q) : (0 <= q)%Q -> (Qabs (B64.rnd q - q) <= q * unit_roundoff)%Q.
Proof.
  intros Hq. unfold B64.rnd.
  destruct (q ?= 0)%Q eqn:C.
  - apply Qeq_alt in C. rewrite C. discriminate.
  - apply Qlt_alt in C. lra.
  - apply Qgt_alt in C. now apply rnd_pos_error.
Qed.

(** Rounding keeps a number between 0 and 1 there. *)
Lemma rnd_unit (q : Q) : (0 <= q <= 1)%Q -> (0 <= B64.rnd q <= 1)%Q.
Proof.
  intros [Hq Hq1]. unfold B64.rnd.
  destruct (q ?= 0)%Q eqn:C.
  - split; discriminate.
  - apply Qlt_alt in C. lra.
  - apply Qgt_alt in C. split; [now apply rnd_pos_nonneg | now apply rnd_pos_le_1].
Qed.

Lemma filter_permutation {A : Type} (f : A -> bool) (xs ys : list A) :
  Permutation xs ys -> Permutation (filter f xs) (filter f ys).
Proof.
  induction 1 as [|x xs ys _ IH|x y xs|xs ys zs _ IH1 _ IH2]; simpl.
  - constructor.
  - destruct (f x); [now constructor | exact IH].
  - destruct (f x), (f y); try reflexivity. apply perm_swap.
  - now transitivity (filter f ys).
Qed.

Lemma gt_finite (a b : Q) : Np.gt (Fin a) (Fin b) = true <-> (b < a)%Q.
Proof.
  unfold Np.gt. rewrite negb_true_iff. split.
  - intros H. apply Qnot_le_lt. intros Hle.
    apply Qle_bool_iff in Hle. congruence.
  - intros H. destruct (Qle_bool a b) eqn:E; [|reflexivity].
    apply Qle_bool_iff in E. exfalso. exact (Qlt_not_le _ _ H E).
Qed.

Lemma gt_finite_false (a b : Q) : Np.gt (Fin a) (Fin b) = false <-> (a <= b)%Q.
Proof.
  unfold Np.gt. rewrite negb_false_iff. apply Qle_bool_iff.
Qed.

Lemma range_sorted (start stop step : Z) :
  0 < step -> StronglySorted Z.lt (Py.range start stop step).
Proof.
  intros Hstep. unfold Py.range.
  generalize (Z.to_nat ((stop - start + step - 1) / step)) as n.
  generalize 0%nat as a.
  intros a n. revert a.
  induction n as [|n IH]; intros a; simpl; constructor.
  - apply IH.
  - apply Forall_forall. intros x Hx.
    apply in_map_iff in Hx. destruct Hx as [k [<- Hk]].
    apply in_seq in Hk. nia.
Qed.

Lemma sorted_split (pre post : list Z) (r : Z) :
  StronglySorted Z.lt (pre ++ r :: post) ->
  (forall x, In x pre -> x < r) /\ (forall x, In x post -> r < x).
Proof.
  induction pre as [|p pre IH]; simpl; intros H.
  - inversion H as [|? ? _ Hall]; subst. split; [intros x [] |].
    intros x Hx. rewrite Forall_forall in Hall. now apply Hall.
  - inversion H as [|? ? Hs Hall]; subst.
    destruct (IH Hs) as [Hpre Hpost]. split; [|exact Hpost].
    intros x [<- | Hx]; [|now apply Hpre].
    rewrite Forall_forall in Hall. apply Hall.
    apply in_or_app. right. now left.
Qed.

(** ** The selection and the unit counts *)

Lemma round_div_finite (m : Q) (a : Z) :
  Qzero m = false ->
  Np.round (Np.div (of_int a) (Fin m)) = of_int (unit_count m a).
Proof. intros H. unfold Np.div, of_int. now rewrite H. Qed.

Lemma selected_forall (P : Z -> Prop) (l r : Z) (V : list Z) :
  Forall P V -> Forall P (selected l r V).
Proof.
  intros H. apply Forall_forall. intros a Ha.
  apply filter_In in Ha. destruct Ha as [Ha _].
  rewrite Forall_forall in H. now apply H.
Qed.

Lemma in_window_spec (l r a : Z) : in_window l r a = true <-> l < a <= r.
Proof. unfold in_window. rewrite andb_true_iff, Z.ltb_lt, Z.leb_le. tauto. Qed.

Lemma selected_nil_iff (l r : Z) (V : list Z) :
  selected l r V = [] <-> forall a, In a V -> ~ (l < a <= r).
Proof.
  unfold selected. split.
  - intros H a Ha Hw.
    assert (Hin : In a (filter (in_window l r) V))
      by (apply filter_In; split; [exact Ha | now apply in_window_spec]).
    rewrite H in Hin. exact Hin.
  - intros H. induction V as [|x V IH]; [reflexivity|]. simpl.
    destruct (in_window l r x) eqn:E.
    + apply in_window_spec in E. exfalso. apply (H x); [now left | exact E].
    + apply IH. intros a Ha. apply H. now right.
Qed.

Lemma unit_count_nonneg (m : Q) (a : Z) :
  (0 < m)%Q -> 0 <= a -> 0 <= unit_count m a.
Proof.
  intros Hm Ha. apply round_half_even_nonneg.
  apply Qle_shift_div_l; [exact Hm|]. rewrite Qmult_0_l.
  change 0%Q with (inject_Z 0). now rewrite <- Zle_Qle.
Qed.

Lemma circle_area_permutation (l r : Z) (V V' : list Z) :
  Permutation V V' -> circle_area l r V = circle_area l r V'.
Proof.
  intros H. unfold circle_area.
  pose proof (filter_permutation (in_window l r) _ _ H) as Hs.
  fold (selected l r V) (selected l r V') in Hs.
  now rewrite (isum_permutation _ _ Hs), (Permutation_length Hs).
Qed.

Lemma relative_error_finite (found : Z) (t : Q) :
  (0 < t)%Q -> relative_error found (Fin t) = Fin (rel_err found t).
Proof.
  intros Ht. unfold relative_error, Np.sub, Np.abs, Np.add, Np.opp, of_int, Np.div.
  assert (H : Qzero t = false).
  { apply Qzero_false. intros E. rewrite E in Ht. discriminate Ht. }
  now rewrite H.
Qed.

Lemma rel_err_nonneg (found : Z) (t : Q) : (0 < t)%Q -> (0 <= rel_err found t)%Q.
Proof.
  intros Ht. unfold rel_err. apply Qle_shift_div_l; [exact Ht|].
  rewrite Qmult_0_l. apply Qabs_nonneg.
Qed.

Lemma rel_err_zero (t : Q) : (0 < t)%Q -> (rel_err 0 t == 1)%Q.
Proof.
  intros Ht. unfold rel_err.
  assert (Hne : ~ (t == 0)%Q) by (intros E; rewrite E in Ht; discriminate Ht).
  rewrite Qabs_neg.
  - field. exact Hne.
  - change (inject_Z 0) with 0%Q. lra.
Qed.

Lemma grid_spec (r : Z) :
  In r grid <-> exists k, 0 <= k < 96 /\ r = 40 + 10 * k.
Proof.
  unfold grid, Py.range. change (Z.to_nat _) with 96%nat.
  rewrite in_map_iff. split.
  - intros [k [<- Hk]]. apply in_seq in Hk. exists (Z.of_nat k). lia.
  - intros [k [Hk ->]]. exists (Z.to_nat k). split; [lia|].
    apply in_seq. lia.
Qed.

(** ** The count estimator *)

Section Estimator.

Variable image : Type.
Variable connected_components : image -> list stat_row.

Lemma get_count_areas (V : list Z) (l r : Z) :
  get_count connected_components (Areas V) l r =
  (found <- to_int (Np.sum (map (fun a => Np.round (Np.div (of_int a)
                                                (Np.mean (selected l r V)))) V)) ;;
   Ok (found, None)).
Proof.
  unfold get_count, selected, in_window. cbv zeta.
  now rewrite take_mask_filter.
Qed.

(** With a non-empty selection of positive areas the estimate is the sum of
    the unit counts. *)
Lemma get_count_selected (V : list Z) (l r : Z) :
  Forall (fun a => 1 <= a) V -> selected l r V <> [] ->
  get_count connected_components (Areas V) l r =
  Ok (isum (map (unit_count (circle_area l r V)) V), None).
Proof.
  intros Hpos Hsel. rewrite get_count_areas, (mean_nonempty _ Hsel).
  fold (circle_area l r V).
  assert (Hm : Qzero (circle_area l r V) = false).
  { apply Qzero_false. intros E.
    pose proof (mean_positive _ Hsel (selected_forall _ l r V Hpos)) as Hp.
    fold (circle_area l r V) in Hp. rewrite E in Hp. discriminate Hp. }
  rewrite (map_ext _ (fun a => of_int (unit_count (circle_area l r V) a)))
    by (intros a; now apply round_div_finite).
  rewrite <- map_map, sum_of_int, to_int_of_int. reflexivity.
Qed.

(** With an empty selection in a non-empty array every ratio is NaN, and
    [int] raises [ValueError]. *)
Lemma get_count_unselected (V : list Z) (l r : Z) :
  V <> [] -> selected l r V = [] ->
  get_count connected_components (Areas V) l r = Raise ValueError.
Proof.
  intros Hne Hsel. rewrite get_count_areas, Hsel, mean_empty.
  destruct V as [|a V]; [contradiction|].
  unfold Np.sum. cbn [map fold_left].
  rewrite div_NaN_r. cbn [Np.round]. rewrite add_NaN_r, fold_add_NaN.
  reflexivity.
Qed.

(** C10. On the empty Area Vector [get_count] returns the count 0 and
    raises nothing, for all bounds: the mean of the empty selection is NaN,
    the array of ratios is empty and its sum is 0. *)
Theorem get_count_empty_vector (l r : Z) :
  selected l r [] = [] /\
  Np.mean (selected l r []) = NaN /\
  get_count connected_components (Areas []) l r = Ok (0, None).
Proof. repeat split. Qed.

(** C1, amended. For an Area Vector of areas >= 1, [get_count] raises
    [ValueError] exactly when the vector is not empty and none of its
    elements lies in the window (l, r]; on the empty vector it returns 0. *)
Theorem get_count_error_iff (V : list Z) (l r : Z) :
  Forall (fun a => 1 <= a) V ->
  (get_count connected_components (Areas V) l r = Raise ValueError <->
   V <> [] /\ forall a, In a V -> ~ (l < a <= r)) /\
  (V = [] -> get_count connected_components (Areas V) l r = Ok (0, None)).
Proof.
  intros Hpos. split; [split|].
  - intros Herr. split.
    + intros ->. discriminate Herr.
    + apply selected_nil_iff.
      destruct (selected l r V) eqn:E; [reflexivity|].
      rewrite get_count_selected in Herr; [discriminate Herr | exact Hpos |].
      rewrite E. discriminate.
  - intros [Hne Hout]. apply get_count_unselected; [exact Hne|].
    now apply selected_nil_iff.
  - intros ->. reflexivity.
Qed.

(** C8. For an Area Vector of areas >= 1 with an element in the window
    (l, r], [get_count] returns a non-negative integer, and returns the
    same integer on every permutation of the vector. *)
Theorem get_count_nonneg_permutation (V : list Z) (l r : Z) :
  Forall (fun a => 1 <= a) V ->
  Exists (fun a => l < a <= r) V ->
  exists n : Z,
    get_count connected_components (Areas V) l r = Ok (n, None) /\
    0 <= n /\
    forall V', Permutation V V' -> get_count connected_components (Areas V') l r = Ok (n, None).
Proof.
  intros Hpos Hex.
  assert (Hsel : selected l r V <> []).
  { intros E. rewrite selected_nil_iff in E.
    apply Exists_exists in Hex. destruct Hex as [a [Ha Hw]].
    exact (E a Ha Hw). }
  exists (isum (map (unit_count (circle_area l r V)) V)).
  split; [now apply get_count_selected|]. split.
  - apply isum_nonneg. apply Forall_forall. intros n Hn.
    apply in_map_iff in Hn. destruct Hn as [a [<- Ha]].
    apply unit_count_nonneg.
    + apply (mean_positive _ Hsel). now apply selected_forall.
    + rewrite Forall_forall in Hpos. specialize (Hpos a Ha). lia.
  - intros V' Hperm.
    rewrite get_count_selected.
    + rewrite <- (circle_area_permutation l r V V' Hperm).
      do 2 f_equal. symmetry. apply isum_permutation.
      now apply Permutation_map.
    + apply Forall_forall. intros a Ha.
      rewrite Forall_forall in Hpos. apply Hpos.
      apply (Permutation_in a (Permutation_sym Hperm) Ha).
    + intros E. apply Hsel.
      pose proof (filter_permutation (in_window l r) _ _ Hperm) as Hs.
      fold (selected l r V) (selected l r V') in Hs. rewrite E in Hs.
      now apply Permutation_nil, Permutation_sym.
Qed.

(** ** The boundary search *)

Lemma try_count_estimate (V : list Z) (l r : Z) :
  Forall (fun a => 1 <= a) V -> try_count connected_components V l r = Ok (estimate V l r).
Proof.
  intros Hpos. unfold try_count, estimate.
  destruct (selected l r V) as [|s S] eqn:E.
  - destruct V as [|a V]; [reflexivity|].
    rewrite get_count_unselected; [reflexivity | discriminate | exact E].
  - rewrite get_count_selected; [reflexivity | exact Hpos |].
    rewrite E. discriminate.
Qed.

Lemma scan_spec (V : list Z) (t : Q) (l : Z) (rs : list Z) :
  Forall (fun a => 1 <= a) V -> (0 < t)%Q ->
  forall (m0 : Q) (b0 : option Z),
  exists st,
    scan connected_components V (Fin t) l rs {| min_error := Fin m0; best_r := b0 |} = Ok st /\
    scan_result (fun r => rel_err (estimate V l r) t) rs m0 b0 st.
Proof.
  intros Hpos Ht. set (e := fun r => rel_err (estimate V l r) t).
  induction rs as [|r rs IH]; intros m0 b0.
  - eexists. split; [reflexivity|]. apply scan_kept. intros r [].
  - cbn [scan]. unfold scan_step.
    rewrite (try_count_estimate V l r Hpos). cbn [Py.bind min_error].
    rewrite (relative_error_finite _ _ Ht). fold (e r).
    destruct (Np.gt (Fin m0) (Fin (e r))) eqn:G; cbn [Py.bind].
    + apply gt_finite in G.
      destruct (IH (e r) (Some r)) as [st [Hst Hres]].
      exists st. split; [exact Hst|].
      inversion Hres as [Hall | pre post r2 Hrs Hlt Hpre Hpost]; subst.
      * apply (scan_updated e _ m0 b0 [] rs r); auto.
        intros r' [].
      * apply (scan_updated e _ m0 b0 (r :: pre) post r2); auto.
        -- now apply Qlt_trans with (e r).
        -- intros r' [<- | Hin]; auto.
    + apply gt_finite_false in G.
      destruct (IH m0 b0) as [st [Hst Hres]].
      exists st. split; [exact Hst|].
      inversion Hres as [Hall | pre post r2 Hrs Hlt Hpre Hpost]; subst.
      * apply scan_kept. intros r' [<- | Hin]; auto.
      * apply (scan_updated e _ m0 b0 (r :: pre) post r2); auto.
        intros r' [<- | Hin]; auto.
        now apply Qlt_le_trans with m0.
Qed.

Lemma search_unfold (V : list Z) (lab : float64) (prev : option Z) :
  search connected_components V lab prev =
  (st <- scan connected_components V lab 30 grid {| min_error := of_int 100000; best_r := prev |} ;;
   match best_r st with
   | Some r => Ok (30, r, min_error st)
   | None => Raise UnboundLocalError
   end).
Proof. reflexivity. Qed.

(** Whatever the search returns has [l = 30], a non-negative error, and an
    [r] that is a candidate of the grid or the [best_r] left by the image
    before. *)
Lemma search_returns (V : list Z) (t : Q) (prev : option Z) (l r : Z) (m : float64) :
  Forall (fun a => 1 <= a) V -> (0 < t)%Q ->
  search connected_components V (Fin t) prev = Ok (l, r, m) ->
  l = 30 /\ (In r grid \/ prev = Some r) /\ exists q, m = Fin q /\ (0 <= q)%Q.
Proof.
  intros Hpos Ht. rewrite search_unfold.
  destruct (scan_spec V t 30 grid Hpos Ht (inject_Z 100000) prev) as [st [Hst Hres]].
  fold (of_int 100000) in Hst. rewrite Hst. cbn [Py.bind].
  inversion Hres as [Hall | pre post r2 Hrs Hlt Hpre Hpost]; subst st;
    cbn [best_r min_error].
  - destruct prev as [p|]; [|discriminate].
    intros [= <- <- <-]. split; [reflexivity|]. split; [now right|].
    eexists. split; [reflexivity | discriminate].
  - intros [= <- <- <-]. split; [reflexivity|]. split.
    + left. rewrite Hrs. apply in_or_app. right. now left.
    + eexists. split; [reflexivity | now apply rel_err_nonneg].
Qed.

(** When some candidate has a relative error below the initial running
    minimum 100000, the search returns the first candidate of least error. *)
Lemma search_first_minimum (V : list Z) (t : Q) (prev : option Z) :
  Forall (fun a => 1 <= a) V -> (0 < t)%Q ->
  (exists r0, In r0 grid /\ (rel_err (estimate V 30 r0) t < inject_Z 100000)%Q) ->
  exists r,
    search connected_components V (Fin t) prev = Ok (30, r, Fin (rel_err (estimate V 30 r) t)) /\
    In r grid /\
    (forall r', In r' grid ->
       (rel_err (estimate V 30 r) t <= rel_err (estimate V 30 r') t)%Q) /\
    (forall r', In r' grid ->
       (rel_err (estimate V 30 r') t == rel_err (estimate V 30 r) t)%Q -> r <= r').
Proof.
  intros Hpos Ht [r0 [Hr0 Hlow]]. rewrite search_unfold.
  destruct (scan_spec V t 30 grid Hpos Ht (inject_Z 100000) prev) as [st [Hst Hres]].
  fold (of_int 100000) in Hst. rewrite Hst. cbn [Py.bind].
  inversion Hres as [Hall | pre post r Hrs Hlt Hpre Hpost]; subst st.
  - exfalso. apply (Qlt_not_le _ _ Hlow). now apply Hall.
  - exists r. cbn [best_r min_error]. split; [reflexivity|].
    pose proof (range_sorted 40 1000 10 eq_refl) as Hsorted.
    fold grid in Hsorted. rewrite Hrs in Hsorted.
    destruct (sorted_split _ _ _ Hsorted) as [Hbefore Hafter].
    assert (Hcases : forall r', In r' grid -> In r' pre \/ r' = r \/ In r' post).
    { intros r' Hin. rewrite Hrs in Hin. apply in_app_or in Hin.
      destruct Hin as [Hin | [<- | Hin]]; auto. }
    split; [|split].
    + rewrite Hrs. apply in_or_app. right. now left.
    + intros r' Hin. destruct (Hcases r' Hin) as [Hp | [-> | Hp]].
      * now apply Qlt_le_weak, Hpre.
      * apply Qle_refl.
      * now apply Hpost.
    + intros r' Hin Heq. destruct (Hcases r' Hin) as [Hp | [-> | Hp]].
      * exfalso. specialize (Hpre r' Hp). rewrite Heq in Hpre.
        exact (Qlt_irrefl _ Hpre).
      * lia.
      * specialize (Hafter r' Hp). lia.
Qed.

(** C7. On the empty Area Vector, for every strictly positive true count,
    every candidate of the grid has the estimate 0, and the search returns
    r = 40, the first candidate, with a minimum relative error equal to 1. *)
Theorem search_empty_vector (t : Q) (prev : option Z) :
  (0 < t)%Q ->
  (forall r, In r grid -> try_count connected_components [] 30 r = Ok 0) /\
  exists m, search connected_components [] (Fin t) prev = Ok (30, 40, Fin m) /\ (m == 1)%Q.
Proof.
  intros Ht. split; [reflexivity|].
  assert (H40 : In 40 grid) by (apply grid_spec; exists 0; lia).
  destruct (search_first_minimum [] t prev (Forall_nil _) Ht) as [r [Hs [Hin [_ Hfirst]]]].
  { exists 40. split; [exact H40|]. change (estimate [] 30 40) with 0.
    rewrite (rel_err_zero t Ht). reflexivity. }
  change (estimate [] 30 r) with 0 in Hs.
  assert (Hr : r = 40).
  { specialize (Hfirst 40 H40 (Qeq_refl _)).
    apply grid_spec in Hin. destruct Hin as [k [Hk ->]]. lia. }
  subst r. exists (rel_err 0 t). split; [exact Hs | now apply rel_err_zero].
Qed.

End Estimator.

(** ** The histogram features *)

Lemma cut_code_table :
  forallb (fun n => match Pd.cut_code bin_edges (Z.of_nat n) with
                    | Some k => Nat.eqb k (bin_of (Z.of_nat n))
                    | None => false
                    end) (seq 0 991) = true.
Proof. vm_compute. reflexivity. Qed.

Lemma cut_code_inside (a : Z) :
  0 <= a <= 990 -> Pd.cut_code bin_edges a = Some (bin_of a).
Proof.
  intros Ha. pose proof cut_code_table as H.
  rewrite forallb_forall in H. specialize (H (Z.to_nat a)).
  rewrite Z2Nat.id in H by lia.
  destruct (Pd.cut_code bin_edges a) as [k|].
  - f_equal. apply Nat.eqb_eq. apply H. apply in_seq. lia.
  - discriminate H. apply in_seq. lia.
Qed.

Lemma bin_of_bound (a : Z) : 0 <= a <= 990 -> (bin_of a < 99)%nat.
Proof.
  intros Ha. unfold bin_of. destruct (a =? 0); [lia|].
  assert ((a - 1) / 10 < 99) by (apply Z.div_lt_upper_bound; lia).
  assert (0 <= (a - 1) / 10 \/ (a - 1) / 10 < 0) as [|] by lia; lia.
Qed.

Lemma searchsorted_left_above (bins : list Z) (x : Z) :
  Forall (fun b => b < x) bins -> Pd.searchsorted_left bins x = length bins.
Proof.
  induction 1 as [|b bins Hb _ IH]; simpl; [reflexivity|].
  apply Z.ltb_lt in Hb. now rewrite Hb, IH.
Qed.

(** Areas outside [0, 990] have no bin. *)
Lemma cut_code_outside (a : Z) :
  a < 0 \/ 990 < a -> Pd.cut_code bin_edges a = None.
Proof.
  intros Ha. unfold Pd.cut_code.
  assert (Hhd : match bin_edges with b0 :: _ => a =? b0 | [] => false end = (a =? 0))
    by reflexivity.
  rewrite Hhd. clear Hhd.
  destruct (a =? 0) eqn:E0; [apply Z.eqb_eq in E0; lia|].
  destruct Ha as [Ha | Ha].
  - assert (Hs : Pd.searchsorted_left bin_edges a = O).
    { assert (Hb : bin_edges = 0 :: tl bin_edges) by reflexivity.
      rewrite Hb. cbn [Pd.searchsorted_left].
      destruct (0 <? a) eqn:E; [apply Z.ltb_lt in E; lia | reflexivity]. }
    rewrite Hs. now rewrite orb_true_r.
  - rewrite searchsorted_left_above, Nat.eqb_refl; [reflexivity|].
    apply Forall_forall. intros b Hb. unfold bin_edges, Np.arange, Py.range in Hb.
    change (Z.to_nat _) with 100%nat in Hb.
    apply in_map_iff in Hb. destruct Hb as [k [<- Hk]]. apply in_seq in Hk. lia.
Qed.

Lemma in_bin_spec (k : nat) (a : Z) :
  in_bin k a = true <->
  (a = 0 /\ k = O) \/ 10 * Z.of_nat k < a <= 10 * Z.of_nat k + 10.
Proof.
  unfold in_bin.
  rewrite orb_true_iff, !andb_true_iff, Z.eqb_eq, Nat.eqb_eq, Z.ltb_lt, Z.leb_le.
  reflexivity.
Qed.

Lemma has_code_cut (k : nat) (a : Z) :
  (k < 99)%nat -> Pd.has_code k (Pd.cut_code bin_edges a) = in_bin k a.
Proof.
  intros Hk. apply Bool.eq_iff_eq_true. rewrite in_bin_spec.
  destruct (Z_le_dec 0 a) as [Hnn | Hneg];
    [destruct (Z_le_dec a 990) as [Hle | Hbig] |].
  - rewrite cut_code_inside by lia. cbn [Pd.has_code].
    rewrite Nat.eqb_eq. unfold bin_of.
    destruct (Z.eqb_spec a 0) as [-> | Hz]; [lia|].
    pose proof (Z.div_mod (a - 1) 10 ltac:(lia)) as Hdm.
    pose proof (Z.mod_pos_bound (a - 1) 10 ltac:(lia)) as Hmod.
    assert (Hq : 0 <= (a - 1) / 10) by (apply Z.div_pos; lia).
    lia.
  - rewrite cut_code_outside by lia. cbn [Pd.has_code].
    split; [discriminate | lia].
  - rewrite cut_code_outside by lia. cbn [Pd.has_code].
    split; [discriminate | lia].
Qed.

Lemma filter_map_length {A B : Type} (f : B -> bool) (g : A -> B) (xs : list A) :
  length (filter f (map g xs)) = length (filter (fun x => f (g x)) xs).
Proof.
  induction xs as [|x xs IH]; simpl; [reflexivity|].
  destruct (f (g x)); simpl; now rewrite IH.
Qed.

Lemma filter_filter_implied {A : Type} (f g : A -> bool) (xs : list A) :
  (forall x, f x = true -> g x = true) ->
  filter f (filter g xs) = filter f xs.
Proof.
  intros H. induction xs as [|x xs IH]; simpl; [reflexivity|].
  destruct (g x) eqn:G; simpl.
  - now rewrite IH.
  - destruct (f x) eqn:F; [|exact IH].
    apply H in F. congruence.
Qed.

Lemma in_bin_below (k : nat) (a : Z) :
  (k < 99)%nat -> in_bin k a = true -> (a <? 1000) = true.
Proof.
  intros Hk H. apply Z.ltb_lt. apply in_bin_spec in H. lia.
Qed.

(** The feature vector, bin by bin: the share of each of the 99 bins among
    the components that have a bin. *)
Lemma build_features_bins (stats : list stat_row) :
  build_features stats =
  let counts := map (bin_count stats) (seq 0 99) in
  map (fun n => Np.div (of_int n) (of_int (isum counts))) counts.
Proof.
  unfold build_features. cbv zeta. unfold Pd.value_counts_normalize.
  assert (Hc : Pd.value_counts
                 (Pd.cut (map CC_STAT_AREA
                            (filter (fun row => CC_STAT_AREA row <? 1000) stats))
                         (Np.arange 0 1000 10))
               = map (bin_count stats) (seq 0 99)).
  { unfold Pd.value_counts, Pd.cut. cbn [Pd.codes Pd.ncat].
    change (length (Np.arange 0 1000 10) - 1)%nat with 99%nat.
    apply map_ext_in. intros k Hk. apply in_seq in Hk.
    unfold bin_count. f_equal. fold bin_edges.
    rewrite !filter_map_length.
    rewrite (filter_ext _ (fun row => in_bin k (CC_STAT_AREA row)))
      by (intros row; apply has_code_cut; lia).
    f_equal. apply filter_filter_implied.
    intros row. apply in_bin_below. lia. }
  now rewrite Hc.
Qed.

Lemma build_features_length (stats : list stat_row) :
  length (build_features stats) = 99%nat.
Proof. rewrite build_features_bins. cbv zeta. now rewrite !length_map, length_seq. Qed.

(** The exact shares of a total sum to 1 of it. *)
Lemma qsum_shares (T : Q) (xs : list Z) :
  ~ (T == 0)%Q ->
  (qsum (map (fun n => inject_Z n / T) xs) == inject_Z (isum xs) / T)%Q.
Proof.
  intros HT. induction xs as [|x xs IH].
  - cbn. field. exact HT.
  - cbn [map qsum fold_right]. fold (qsum (map (fun n => inject_Z n / T)%Q xs)).
    rewrite IH, isum_cons, inject_Z_plus. field. exact HT.
Qed.

(** Rounding each share moves their sum by at most 2 ^ -53 of itself. *)
Lemma qsum_rounded (round : Q -> Q) (T : Q) (xs : list Z) :
  (forall q, (0 <= q)%Q -> (Qabs (round q - q) <= q * unit_roundoff)%Q) ->
  (0 < T)%Q -> Forall (fun a => 0 <= a) xs ->
  (Qabs (qsum (map (fun n => round (inject_Z n / T)) xs)
         - qsum (map (fun n => inject_Z n / T) xs))
   <= qsum (map (fun n => inject_Z n / T) xs) * unit_roundoff)%Q.
Proof.
  intros Hr HT Hxs. induction Hxs as [|x xs Hx _ IH].
  - cbn. discriminate.
  - cbn [map qsum fold_right].
    fold (qsum (map (fun n => round (inject_Z n / T)%Q) xs)).
    fold (qsum (map (fun n => inject_Z n / T)%Q xs)).
    assert (Hq : (0 <= inject_Z x / T)%Q).
    { apply Qle_shift_div_l; [exact HT|]. rewrite Qmult_0_l.
      change 0%Q with (inject_Z 0). now rewrite <- Zle_Qle. }
    pose proof (Hr _ Hq) as H1.
    apply Qabs_Qle_condition in H1. apply Qabs_Qle_condition in IH.
    apply Qabs_Qle_condition. unfold unit_roundoff in *. lra.
Qed.

(** With no area between 0 and 990 the counts are all 0 and every entry
    is 0 / 0. *)
Lemma build_features_no_bin (stats : list stat_row) :
  (forall row, In row stats -> ~ (0 <= CC_STAT_AREA row <= 990)) ->
  Forall (fun x => x = NaN) (build_features stats).
Proof.
  intros Hout. rewrite build_features_bins. cbv zeta.
  assert (Hz : Forall (fun a => a = 0) (map (bin_count stats) (seq 0 99))).
  { apply Forall_forall. intros n Hn. apply in_map_iff in Hn.
    destruct Hn as [k [<- Hk]]. apply in_seq in Hk. unfold bin_count.
    destruct (filter _ stats) as [|row rest] eqn:E; [reflexivity|].
    exfalso.
    assert (Hin : In row (filter (fun row => in_bin k (CC_STAT_AREA row)) stats))
      by (rewrite E; now left).
    apply filter_In in Hin. destruct Hin as [Hin Hb].
    apply in_bin_spec in Hb. apply (Hout row Hin). lia. }
  rewrite (isum_zeros _ Hz).
  apply Forall_forall. intros x Hx. apply in_map_iff in Hx.
  destruct Hx as [n [<- Hn]].
  rewrite Forall_forall in Hz. now rewrite (Hz n Hn).
Qed.

Lemma bin_counts_nonneg (stats : list stat_row) :
  Forall (fun a => 0 <= a) (map (bin_count stats) (seq 0 99)).
Proof.
  apply Forall_forall. intros n Hn. apply in_map_iff in Hn.
  destruct Hn as [k [<- _]]. unfold bin_count. lia.
Qed.

(** A component with an area between 0 and 990 is counted in its bin. *)
Lemma bin_counts_positive (stats : list stat_row) :
  Exists (fun row => 0 <= CC_STAT_AREA row <= 990) stats ->
  0 < isum (map (bin_count stats) (seq 0 99)).
Proof.
  intros Hex. apply Exists_exists in Hex. destruct Hex as [row [Hrow Harea]].
  set (counts := map (bin_count stats) (seq 0 99)).
  pose proof (bin_counts_nonneg stats) as Hnn. fold counts in Hnn.
  pose proof (bin_of_bound _ Harea) as Hb.
  assert (Hin : In (bin_count stats (bin_of (CC_STAT_AREA row))) counts).
  { apply in_map_iff. eexists. split; [reflexivity|]. apply in_seq. lia. }
  pose proof (isum_member_le _ _ Hnn Hin) as Hle.
  assert (Hone : 0 < bin_count stats (bin_of (CC_STAT_AREA row))).
  { unfold bin_count.
    assert (Hf : In row (filter (fun row0 => in_bin (bin_of (CC_STAT_AREA row))
                                                (CC_STAT_AREA row0)) stats)).
    { apply filter_In. split; [exact Hrow|].
      rewrite <- has_code_cut by exact Hb.
      rewrite cut_code_inside by exact Harea. simpl. apply Nat.eqb_refl. }
    destruct (filter _ stats); [contradiction | simpl; lia]. }
  lia.
Qed.

Lemma share_unit (counts : list Z) (n : Z) :
  Forall (fun a => 0 <= a) counts -> 0 < isum counts -> In n counts ->
  (0 <= inject_Z n / inject_Z (isum counts) <= 1)%Q.
Proof.
  intros Hnn Hpos Hn.
  assert (HTpos : (0 < inject_Z (isum counts))%Q)
    by (change 0%Q with (inject_Z 0); rewrite <- Zlt_Qlt; exact Hpos).
  pose proof (isum_member_le _ _ Hnn Hn) as Hle.
  rewrite Forall_forall in Hnn. specialize (Hnn n Hn). split.
  - apply Qle_shift_div_l; [exact HTpos|]. rewrite Qmult_0_l.
    change 0%Q with (inject_Z 0). now rewrite <- Zle_Qle.
  - apply Qle_shift_div_r; [exact HTpos|]. rewrite Qmult_1_l.
    now rewrite <- Zle_Qle.
Qed.


(** ** The split of the training rows *)

Lemma nonzero_member (mask : list bool) (a i : nat) :
  existsb (Nat.eqb i) (map fst (filter snd (combine (seq a (length mask)) mask)))
  = (a <=? i)%nat && nth (i - a) mask false.
Proof.
  revert a. induction mask as [|m mask IH]; intros a.
  - simpl. destruct (i - a)%nat; now rewrite andb_false_r.
  - cbn [length seq combine filter snd].
    assert (Htail : existsb (Nat.eqb i)
                      (map fst (filter snd (combine (seq (S a) (length mask)) mask)))
                    = (S a <=? i)%nat && nth (i - S a) mask false) by apply IH.
    destruct (Nat.eq_dec i a) as [-> | Hne].
    + rewrite Nat.leb_refl, Nat.sub_diag. cbn [nth andb].
      destruct m; cbn [map fst existsb].
      * now rewrite Nat.eqb_refl.
      * rewrite Htail.
        destruct (Nat.leb_spec (S a) a); [lia | reflexivity].
    + assert (Hhead : Nat.eqb i a = false) by now apply Nat.eqb_neq.
      assert (Hrest : existsb (Nat.eqb i)
                (map fst (if m then (a, m) :: filter snd (combine (seq (S a) (length mask)) mask)
                          else filter snd (combine (seq (S a) (length mask)) mask)))
              = (S a <=? i)%nat && nth (i - S a) mask false).
      { destruct m; cbn [map fst existsb]; [rewrite Hhead|]; exact Htail. }
      rewrite Hrest.
      destruct (Nat.leb_spec a i) as [Hle | Hgt].
      * destruct (Nat.leb_spec (S a) i); [|lia]. cbn [andb].
        replace (i - a)%nat with (S (i - S a)) by lia. reflexivity.
      * destruct (Nat.leb_spec (S a) i); [lia | reflexivity].
Qed.

Lemma delete_rows_offset {A : Type} (arr : list A) :
  forall (mask : list bool) (a : nat),
  length mask = length arr ->
  map snd (filter (fun p => negb ((a <=? fst p)%nat && nth (fst p - a) mask false))
                  (combine (seq a (length arr)) arr))
  = map snd (filter (fun p => negb (fst p)) (combine mask arr)).
Proof.
  induction arr as [|x arr IH]; intros mask a Hlen.
  - destruct mask; reflexivity.
  - destruct mask as [|m mask]; [discriminate|].
    injection Hlen as Hlen.
    cbn [length seq combine].
    set (P := fun p : nat * A =>
                negb ((a <=? fst p)%nat && nth (fst p - a) (m :: mask) false)).
    assert (Hhead : P (a, x) = negb m).
    { unfold P. cbn [fst]. now rewrite Nat.leb_refl, Nat.sub_diag. }
    assert (Htail :
      filter P (combine (seq (S a) (length arr)) arr)
      = filter (fun p => negb ((S a <=? fst p)%nat && nth (fst p - S a) mask false))
               (combine (seq (S a) (length arr)) arr)).
    { apply filter_ext_in. intros [i y] Hin. unfold P. cbn [fst].
      apply in_combine_l in Hin. apply in_seq in Hin.
      destruct (Nat.leb_spec a i); [|lia].
      destruct (Nat.leb_spec (S a) i); [|lia].
      replace (i - a)%nat with (S (i - S a)) by lia. reflexivity. }
    cbn [filter fst]. rewrite Hhead, Htail.
    destruct m; cbn [negb map snd]; rewrite (IH mask (S a) Hlen); reflexivity.
Qed.

(** Deleting the positions where a mask is set keeps the rows where it is
    not. *)
Lemma delete_nonzero {A : Type} (arr : list A) (mask : list bool) :
  length mask = length arr ->
  Np.delete arr (Np.nonzero mask)
  = Ok (map snd (filter (fun p => negb (fst p)) (combine mask arr))).
Proof.
  intros Hlen. unfold Np.delete, Np.nonzero.
  assert (Hin : forallb (fun i => Nat.ltb i (length arr))
                  (map fst (filter snd (combine (seq 0 (length mask)) mask))) = true).
  { apply forallb_forall. intros i Hi. apply Nat.ltb_lt.
    apply in_map_iff in Hi. destruct Hi as [[j b] [<- Hj]].
    apply filter_In in Hj. destruct Hj as [Hj _].
    apply in_combine_l in Hj. apply in_seq in Hj. cbn [fst]. lia. }
  rewrite Hin. f_equal.
  rewrite <- (delete_rows_offset arr mask 0 Hlen). f_equal.
  apply filter_ext. intros [i y]. cbn [fst]. now rewrite nonzero_member.
Qed.

Lemma keep_rows_by_id {A : Type} (f : Z -> bool) (ids : list Z) :
  forall rows : list A,
  map snd (filter (fun p => negb (fst p)) (combine (map f ids) rows))
  = map snd (filter (fun p => negb (f (fst p))) (combine ids rows)).
Proof.
  induction ids as [|i ids IH]; intros rows; [reflexivity|].
  destruct rows as [|x rows]; [reflexivity|].
  cbn [map combine filter fst]. destruct (f i); cbn [negb map snd]; now rewrite IH.
Qed.

Lemma read_data_frame_ids (csv_file : list label_row) (drop_images : list Z) :
  Forall (fun row => ~ In (ImageId row) drop_images /\ prop_count row <> NaN)
         (read_data_frame csv_file drop_images).
Proof.
  apply Forall_forall. intros row Hrow. unfold read_data_frame in Hrow.
  apply filter_In in Hrow. destruct Hrow as [Hrow Hdrop].
  apply filter_In in Hrow. destruct Hrow as [_ Hna]. split.
  - intros Hin. apply negb_true_iff in Hdrop.
    assert (Ht : existsb (Z.eqb (ImageId row)) drop_images = true).
    { apply existsb_exists. exists (ImageId row). split; [exact Hin | apply Z.eqb_refl]. }
    congruence.
  - intros E. rewrite E in Hna. discriminate Hna.
Qed.

Section Pipeline.

Variable image : Type.
Variable read_im : Z -> image.
Variable connected_components : image -> list stat_row.

Lemma brute_force_loop_length (rows : list (list Z * float64 * Z)) :
  forall (id_ : nat) (prev : option Z) (acc acc' : training_data),
  brute_force_loop read_im connected_components id_ rows prev acc = Ok acc' ->
  length (train_x acc') = (length (train_x acc) + length rows)%nat /\
  length (train_y acc') = (length (train_y acc) + length rows)%nat.
Proof.
  induction rows as [|[[im lab] imid] rows IH]; intros id_ prev acc acc' H.
  - injection H as <-. cbn [length]. lia.
  - cbn [brute_force_loop] in H.
    destruct (search connected_components im lab prev) as [[[l r] m]|e]; [|discriminate H].
    cbn [Py.bind] in H.
    destruct (get_count connected_components (Image (read_im imid)) 0 1000) as [[found stats]|e];
      [|discriminate H].
    cbn [Py.bind] in H. apply IH in H. cbn [train_x train_y] in H.
    rewrite !length_app in H. cbn [length] in *. lia.
Qed.

Lemma brute_force_bounds_length (images : list (list Z)) (labels : list float64)
  (imageids : list Z) b tx ty :
  brute_force_bounds read_im connected_components images labels imageids = Ok (b, tx, ty) ->
  length tx = length (combine (combine images labels) imageids) /\
  length ty = length (combine (combine images labels) imageids).
Proof.
  unfold brute_force_bounds. intros H.
  destruct (brute_force_loop _ _ _ _ _ _) as [acc|e] eqn:E; [|discriminate H].
  cbn [Py.bind] in H. injection H as _ <- <-.
  apply brute_force_loop_length in E. cbn [train_x train_y length] in E.
  exact E.
Qed.

(** C6. Whatever the table, the drop list and the test identifiers, the
    rows handed to [fit] are the rows of [train_x] and [train_y] that
    [brute_force_bounds] built, one per row of the filtered table, whose
    identifier is not a test identifier; no row among them has an identifier
    of the test list or of the drop list. *)
Theorem fit_arguments_exclude (csv_file : list label_row)
  (drop_images test_ids : list Z) (x : list (list float64)) (y : list (Z * Z)) :
  fit_arguments read_im connected_components csv_file drop_images test_ids = Ok (x, y) ->
  let df := read_data_frame csv_file drop_images in
  let ids := map ImageId df in
  exists b tx ty,
    brute_force_bounds read_im connected_components (map (fun im => snd (get_stats connected_components (read_im im))) ids)
                       (map prop_count df) ids = Ok (b, tx, ty) /\
    length tx = length ids /\ length ty = length ids /\
    x = map snd (rows_outside test_ids ids tx) /\
    y = map snd (rows_outside test_ids ids ty) /\
    (forall (A : Type) (rows : list A) (id : Z) (row : A),
       In (id, row) (rows_outside test_ids ids rows) ->
       ~ In id test_ids /\ ~ In id drop_images).
Proof.
  intros H df ids. unfold fit_arguments in H. cbv zeta in H.
  unfold precompute_stats in H. cbv zeta in H. fold df in H. fold ids in H.
  destruct (brute_force_bounds _ _ _ _ ids) as [[[b tx] ty]|e] eqn:E; [|discriminate H].
  cbn [Py.bind] in H.
  pose proof (brute_force_bounds_length _ _ _ _ _ _ E) as [Hx Hy].
  rewrite !length_combine, !length_map in Hx, Hy.
  assert (Hids : length ids = length df) by (unfold ids; apply length_map).
  assert (Hmask : length (Np.in1d ids test_ids) = length ids)
    by (unfold Np.in1d; apply length_map).
  rewrite (delete_nonzero tx) in H by lia.
  rewrite (delete_nonzero ty) in H by lia.
  cbn [Py.bind] in H. injection H as <- <-.
  exists b, tx, ty. split; [reflexivity|].
  split; [lia|]. split; [lia|].
  unfold Np.in1d, rows_outside. rewrite !keep_rows_by_id.
  split; [reflexivity|]. split; [reflexivity|].
  intros A rows id row Hin. apply filter_In in Hin. destruct Hin as [Hin Hkeep].
  cbn [fst] in Hkeep. apply negb_true_iff in Hkeep. split.
  - intros Ht.
    assert (Hex : existsb (Z.eqb id) test_ids = true).
    { apply existsb_exists. exists id. split; [exact Ht | apply Z.eqb_refl]. }
    congruence.
  - apply in_combine_l in Hin. unfold ids in Hin.
    apply in_map_iff in Hin. destruct Hin as [r [<- Hr]].
    pose proof (read_data_frame_ids csv_file drop_images) as Hall.
    rewrite Forall_forall in Hall. apply (Hall r Hr).
Qed.

(** The candidate held after the loop over [rs] is the one held before or
    a member of [rs]. *)
Lemma scan_best_r (V : list Z) (lab : float64) (l : Z) (rs : list Z) :
  forall st st',
  scan connected_components V lab l rs st = Ok st' ->
  best_r st' = best_r st \/ exists r, In r rs /\ best_r st' = Some r.
Proof.
  induction rs as [|r rs IH]; intros st st' H.
  - injection H as <-. now left.
  - cbn [scan] in H. unfold scan_step in H.
    destruct (try_count connected_components V l r) as [found|e]; [|discriminate H].
    cbn [Py.bind] in H.
    destruct (Np.gt (min_error st) (relative_error found lab));
      cbn [Py.bind] in H; apply IH in H; cbn [best_r] in H;
      destruct H as [H | [r' [Hin H]]].
    + right. exists r. split; [now left | exact H].
    + right. exists r'. split; [now right | exact H].
    + now left.
    + right. exists r'. split; [now right | exact H].
Qed.

(** Every pair the search returns has [l = 30] and an [r] of the grid, or
    the [r] of the image before. *)
Lemma search_pair (V : list Z) (lab : float64) (prev : option Z)
  (l r : Z) (m : float64) :
  search connected_components V lab prev = Ok (l, r, m) ->
  l = 30 /\ (In r grid \/ prev = Some r).
Proof.
  rewrite search_unfold.
  destruct (scan connected_components V lab 30 grid _) as [st|e] eqn:E;
    [|discriminate].
  cbn [Py.bind]. apply scan_best_r in E. cbn [best_r] in E.
  destruct (best_r st) as [b|] eqn:Hb; [|discriminate].
  intros [= <- <- <-]. split; [reflexivity|].
  destruct E as [E | [r' [Hin E]]].
  - right. now symmetry.
  - left. now injection E as ->.
Qed.

Lemma brute_force_loop_pairs (rows : list (list Z * float64 * Z)) :
  forall (id_ : nat) (prev : option Z) (acc acc' : training_data),
  (forall r, prev = Some r -> In r grid) ->
  Forall (fun p => fst p = 30 /\ In (snd p) grid) (train_y acc) ->
  brute_force_loop read_im connected_components id_ rows prev acc = Ok acc' ->
  Forall (fun p => fst p = 30 /\ In (snd p) grid) (train_y acc').
Proof.
  induction rows as [|[[im lab] imid] rows IH]; intros id_ prev acc acc' Hprev Hacc H.
  - now injection H as <-.
  - cbn [brute_force_loop] in H.
    destruct (search connected_components im lab prev) as [[[l r] m]|e] eqn:E;
      [|discriminate H].
    cbn [Py.bind] in H.
    destruct (get_count connected_components (Image (read_im imid)) 0 1000)
      as [[found stats]|e]; [|discriminate H].
    cbn [Py.bind] in H.
    apply search_pair in E. destruct E as [-> Hr].
    assert (Hin : In r grid) by (destruct Hr as [Hr | Hr]; [exact Hr | now apply Hprev]).
    apply IH in H; [exact H | |].
    + now intros r' [= <-].
    + cbn [train_y]. apply Forall_app. split; [exact Hacc|].
      constructor; [split; [reflexivity | exact Hin] | constructor].
Qed.

(** Whenever [brute_force_bounds] returns, every pair of [train_y] has
    [l = 30] and an [r] of the grid. *)
Lemma brute_force_bounds_pairs (images : list (list Z)) (labels : list float64)
  (imageids : list Z) b tx ty :
  brute_force_bounds read_im connected_components images labels imageids
  = Ok (b, tx, ty) ->
  Forall (fun p => fst p = 30 /\ In (snd p) grid) ty.
Proof.
  unfold brute_force_bounds. intros H.
  destruct (brute_force_loop _ _ _ _ _ _) as [acc|e] eqn:E; [|discriminate H].
  cbn [Py.bind] in H. injection H as _ _ <-.
  apply brute_force_loop_pairs in E; [exact E | discriminate | constructor].
Qed.

End Pipeline.

(** ** The scenarios, evaluated *)

(** C1, as stated, fails on the empty Area Vector: no element lies in the
    window (30, 40], and [get_count] raises nothing. *)
Lemma get_count_empty_no_error :
  ~ (get_count image_stats (Areas []) 30 40 = Raise ValueError <->
     forall a, In a [] -> ~ (30 < a <= 40)).
Proof.
  intros [_ H].
  assert (E : get_count image_stats (Areas []) 30 40 = Raise ValueError)
    by (apply H; intros a []).
  discriminate E.
Qed.

Lemma get_count_error_iff_witness :
  Forall (fun a => 1 <= a) scenario_areas /\
  ((get_count image_stats (Areas scenario_areas) 30 40 = Raise ValueError <->
    scenario_areas <> [] /\ forall a, In a scenario_areas -> ~ (30 < a <= 40)) /\
   (scenario_areas = [] ->
    get_count image_stats (Areas scenario_areas) 30 40 = Ok (0, None))).
Proof.
  assert (H : Forall (fun a => 1 <= a) scenario_areas)
    by (repeat constructor; lia).
  split; [exact H|].
  apply (get_count_error_iff (list stat_row) image_stats scenario_areas 30 40 H).
Defined.

Lemma get_count_nonneg_permutation_witness :
  Forall (fun a => 1 <= a) scenario_areas /\
  Exists (fun a => 30 < a <= 60) scenario_areas /\
  exists n : Z,
    get_count image_stats (Areas scenario_areas) 30 60 = Ok (n, None) /\
    0 <= n /\
    forall V', Permutation scenario_areas V' ->
               get_count image_stats (Areas V') 30 60 = Ok (n, None).
Proof.
  assert (H : Forall (fun a => 1 <= a) scenario_areas)
    by (repeat constructor; lia).
  assert (E : Exists (fun a => 30 < a <= 60) scenario_areas)
    by (apply Exists_cons_hd; lia).
  split; [exact H|]. split; [exact E|].
  apply (get_count_nonneg_permutation (list stat_row) image_stats
           scenario_areas 30 60 H E).
Defined.

Lemma search_empty_vector_witness :
  (0 < 5)%Q /\
  (forall r, In r grid -> try_count image_stats [] 30 r = Ok 0) /\
  exists m, search image_stats [] (Fin 5) None = Ok (30, 40, Fin m) /\ (m == 1)%Q.
Proof.
  assert (H : (0 < 5)%Q) by reflexivity.
  split; [exact H|].
  apply (search_empty_vector (list stat_row) image_stats 5 None H).
Defined.

(** C3, as stated, fails: the search on [50, 55, 52, 300] with true count 5
    does not return r = 60. *)
Lemma search_scenario_not_60 :
  ~ exists m, search image_stats scenario_areas (of_int 5) None = Ok (30, 60, m).
Proof.
  intros [m H]. vm_compute in H. discriminate H.
Qed.

(** C3, amended. For the Area Vector [50, 55, 52, 300] and the true count
    5: at r = 60 the selected areas are 50, 55 and 52, their mean is 157/3,
    the estimate is 1 + 1 + 1 + 6 = 9 and the relative error 4/5; the search
    returns r = 300, the first candidate whose window holds the four areas,
    where the mean is 457/4, the estimate 0 + 0 + 0 + 3 = 3 and the relative
    error 2/5, the least over the grid. *)
Theorem search_scenario :
  selected 30 60 scenario_areas = [50; 55; 52] /\
  circle_area 30 60 scenario_areas = (157 # 3)%Q /\
  map (unit_count (circle_area 30 60 scenario_areas)) scenario_areas = [1; 1; 1; 6] /\
  get_count image_stats (Areas scenario_areas) 30 60 = Ok (9, None) /\
  relative_error 9 (of_int 5) = Fin (4 # 5) /\
  search image_stats scenario_areas (of_int 5) None = Ok (30, 300, Fin (2 # 5)) /\
  circle_area 30 300 scenario_areas = (457 # 4)%Q /\
  map (unit_count (circle_area 30 300 scenario_areas)) scenario_areas = [0; 0; 0; 3] /\
  get_count image_stats (Areas scenario_areas) 30 300 = Ok (3, None) /\
  forall r, In r grid ->
    exists found,
      try_count image_stats scenario_areas 30 r = Ok found /\
      Np.gt (Fin (2 # 5)) (relative_error found (of_int 5)) = false.
Proof.
  repeat (split; [vm_compute; reflexivity|]).
  intros r Hr.
  assert (Hall : forallb (fun r =>
            match try_count image_stats scenario_areas 30 r with
            | Ok found => negb (Np.gt (Fin (2 # 5)) (relative_error found (of_int 5)))
            | Raise _ => false
            end) grid = true) by (vm_compute; reflexivity).
  rewrite forallb_forall in Hall. specialize (Hall r Hr).
  destruct (try_count image_stats scenario_areas 30 r) as [found|e];
    [|discriminate Hall].
  exists found. split; [reflexivity|]. now apply negb_true_iff.
Qed.

(** On the areas [31, 3200000] every candidate of the grid selects the
    area 31 alone, and the count is 1 + 103226. *)
Lemma large_areas_counts (r : Z) :
  In r grid -> try_count image_stats large_areas 30 r = Ok 103227.
Proof.
  intros Hr.
  assert (Hall : forallb (fun r =>
            match try_count image_stats large_areas 30 r with
            | Ok found => found =? 103227
            | Raise _ => false
            end) grid = true) by (vm_compute; reflexivity).
  rewrite forallb_forall in Hall. specialize (Hall r Hr).
  destruct (try_count image_stats large_areas 30 r) as [found|e];
    [|discriminate Hall].
  apply Z.eqb_eq in Hall. now subst found.
Qed.

(** C2: a first image on which no candidate has a relative error below
    the initial running minimum. On the areas [31, 3200000] with the true
    count 1 every candidate of the grid selects the area 31 alone, the count
    is 1 + 103226 and the relative error 103226; the comparison with 100000
    never holds, [best_r] is never assigned, and the search, and with it
    [brute_force_bounds], ends in [UnboundLocalError] instead of returning a
    pair. *)
Theorem search_large_unbound :
  (forall r, In r grid -> try_count image_stats large_areas 30 r = Ok 103227) /\
  relative_error 103227 (of_int 1) = Fin 103226 /\
  Np.gt (of_int 100000) (Fin 103226) = false /\
  search image_stats large_areas (of_int 1) None = Raise UnboundLocalError /\
  brute_force_bounds image_store image_stats [large_areas] [of_int 1] [2]
  = Raise UnboundLocalError.
Proof.
  split; [exact large_areas_counts|].
  repeat split; vm_compute; reflexivity.
Qed.

(** C9: a second image on which all the candidates tie. After the image
    of [scenario_areas] (best r = 300), the image of [large_areas] with the
    true count 1 gives the same relative error 103226 at every candidate;
    the first of them is r = 40, and the pair stored for the image is
    (30, 300), with the r the first image left. *)
Theorem search_stale_best_r :
  In 40 grid /\
  (forall r, In r grid ->
     exists found,
       try_count image_stats large_areas 30 r = Ok found /\
       relative_error found (of_int 1) = Fin 103226) /\
  search image_stats large_areas (of_int 1) (Some 300)
  = Ok (30, 300, of_int 100000) /\
  exists train_x,
    brute_force_bounds image_store image_stats
      [scenario_areas; large_areas] [of_int 5; of_int 1] [1; 2]
    = Ok ([(30, 300); (30, 300)], train_x, [(30, 300); (30, 300)]).
Proof.
  split; [apply grid_spec; exists 0; lia|]. split.
  { intros r Hr. exists 103227. split; [|vm_compute; reflexivity].
    now apply large_areas_counts. }
  split; [vm_compute; reflexivity|].
  eexists. vm_compute. reflexivity.
Qed.



(** C5: an image whose background has an area below 1000. The Area
    Vector of [dark_image] leaves out row 0, of area 500; the statistics that
    [get_count] hands back for the histogram keep it, and bin 49, (490, 500],
    holds one half of the distribution, where the components alone give 0;
    this is the feature row [brute_force_bounds] returns for the image. *)
Theorem background_in_histogram :
  label_area_of dark_image = [45; 9455] /\
  get_count image_stats (Image dark_image) 0 1000 = Ok (211, Some dark_image) /\
  bin_count dark_image 49 = 1 /\
  bin_count (skipn 1 dark_image) 49 = 0 /\
  nth 49 (build_features dark_image) NaN = Fin (1 # 2) /\
  nth 49 (build_features (skipn 1 dark_image)) NaN = Fin 0 /\
  brute_force_bounds image_store image_stats [[45; 9455]] [of_int 2] [3]
  = Ok ([(30, 40)], [build_features dark_image], [(30, 40)]).
Proof. repeat split; vm_compute; reflexivity. Qed.

Lemma fit_arguments_exclude_witness :
  fit_arguments image_store image_stats example_table drop_images_const test_ids_const
  = Ok (example_x, example_y) /\
  (let df := read_data_frame example_table drop_images_const in
   let ids := map ImageId df in
   exists b tx ty,
     brute_force_bounds image_store image_stats
       (map (fun im => snd (get_stats image_stats (image_store im))) ids)
       (map prop_count df) ids = Ok (b, tx, ty) /\
     length tx = length ids /\ length ty = length ids /\
     example_x = map snd (rows_outside test_ids_const ids tx) /\
     example_y = map snd (rows_outside test_ids_const ids ty) /\
     (forall (A : Type) (rows : list A) (id : Z) (row : A),
        In (id, row) (rows_outside test_ids_const ids rows) ->
        ~ In id test_ids_const /\ ~ In id drop_images_const)).
Proof.
  assert (H : fit_arguments image_store image_stats example_table
                drop_images_const test_ids_const = Ok (example_x, example_y))
    by (vm_compute; reflexivity).
  split; [exact H|].
  exact (fit_arguments_exclude (list stat_row) image_store image_stats
           example_table drop_images_const test_ids_const example_x example_y H).
Defined.

(** ** The scenarios in binary64 *)

Lemma b64_counts_agree :
  forallb (fun V =>
    forallb (fun r =>
      match B64.try_count V 30 r, try_count image_stats V 30 r with
      | Ok n, Ok n' => n =? n'
      | _, _ => false
      end) grid)
    [scenario_areas; large_areas; []; [45; 9455]] = true.
Proof. vm_compute. reflexivity. Qed.

Lemma b64_search_scenario :
  B64.search scenario_areas (B64.of_int 5) None = Ok (30, 300, b64_two_fifths).
Proof. vm_compute. reflexivity. Qed.

Lemma b64_search_large :
  B64.search large_areas (B64.of_int 1) None = Raise UnboundLocalError /\
  B64.search large_areas (B64.of_int 1) (Some 300)
  = Ok (30, 300, B64.of_int 100000).
Proof. split; vm_compute; reflexivity. Qed.

(** Where the exact count and the binary64 count part: with the areas 33,
    33, 34 selected, the mean is 100 / 3 and the ratio of the area 250 is
    7.5 exactly, which rounds to 8; in binary64 the mean is
    33.333333333333336 and the ratio 7.4999999999999991, which rounds
    to 7. *)
Lemma b64_count_tie :
  get_count image_stats (Areas tie_areas) 30 40 = Ok (11, None) /\
  B64.get_count tie_areas 30 40 = Ok 10.
Proof. split; vm_compute; reflexivity. Qed.

(** The same tie in the search, for the true count 11: the count at
    r = 40 is 12 exactly and 11 in binary64, so that the first candidate of
    least error is 50 for the one and 40 for the other; each search returns
    the first candidate at which its own count is 11. *)
Lemma b64_search_tie :
  try_count image_stats tie_search_areas 30 40 = Ok 12 /\
  try_count image_stats tie_search_areas 30 50 = Ok 11 /\
  search image_stats tie_search_areas (of_int 11) None = Ok (30, 50, Fin (0 # 11)) /\
  B64.try_count tie_search_areas 30 40 = Ok 11 /\
  B64.search tie_search_areas (B64.of_int 11) None = Ok (30, 40, S754_zero false).
Proof. repeat split; vm_compute; reflexivity. Qed.

(** [B64.rnd] is the rounding of the binary64 division: on every quotient
    [c / t] with [0 <= c <= t < 130], the shares of up to 129 components,
    and on a sample of larger ones, it gives the value [SFdiv] gives. *)
Lemma b64_div_rnd :
  forallb (fun t => forallb (fun c => B64.div_agrees c t) (Py.range 0 (t + 1) 1))
    (Py.range 1 130 1) = true /\
  forallb (fun t => forallb (fun c => B64.div_agrees c t) (Py.range 1 300 7))
    [3; 7; 10; 33; 100; 999; 1000; 4097; 65535; 1000003; 33333333] = true.
Proof. split; vm_compute; reflexivity. Qed.

(** The feature vector of [scenario_image] in binary64: its 99 entries are
    the shares 1/5, 2/5, 1/5, 1/5 and 0 rounded by [B64.rnd]; taken exactly,
    they do not sum to 1, and their sum is within 2 ^ -53 of 1. *)
Lemma b64_features_scenario :
  let counts := map (bin_count scenario_image) (seq 0 99) in
  let share := fun n => (inject_Z n / inject_Z (isum counts))%Q in
  map (fun x => option_map Qred (B64.to_Q x)) (B64.build_features scenario_image)
  = map (fun n => Some (Qred (B64.rnd (share n)))) counts /\
  ~ (qsum (map (fun n => B64.rnd (share n)) counts) == 1)%Q /\
  (Qabs (qsum (map (fun n => B64.rnd (share n)) counts) - 1) <= unit_roundoff)%Q.
Proof.
  cbv zeta. split; [|split].
  - vm_compute. reflexivity.
  - intros E. apply Qeq_bool_iff in E. vm_compute in E. discriminate E.
  - apply Qle_bool_iff. vm_compute. reflexivity.
Qed.

(** ** Further properties: the exceptions of the count *)

Lemma fold_add_NaN_member (xs : list float64) (acc : float64) :
  In NaN xs -> fold_left Np.add xs acc = NaN.
Proof.
  revert acc. induction xs as [|x xs IH]; intros acc Hin; [contradiction|].
  cbn [fold_left]. destruct Hin as [-> | Hin].
  - rewrite add_NaN_r. apply fold_add_NaN.
  - now apply IH.
Qed.

Lemma fold_add_PInf_NInf (xs : list float64) :
  In NInf xs -> fold_left Np.add xs PInf = NaN.
Proof.
  induction xs as [|x xs IH]; intros Hin; [contradiction|].
  cbn [fold_left]. destruct Hin as [-> | Hin].
  - apply fold_add_NaN.
  - destruct x; cbn [Np.add]; try (now apply IH); apply fold_add_NaN.
Qed.

Lemma fold_add_NInf_PInf (xs : list float64) :
  In PInf xs -> fold_left Np.add xs NInf = NaN.
Proof.
  induction xs as [|x xs IH]; intros Hin; [contradiction|].
  cbn [fold_left]. destruct Hin as [-> | Hin].
  - apply fold_add_NaN.
  - destruct x; cbn [Np.add]; try (now apply IH); apply fold_add_NaN.
Qed.

(** A sum that meets both infinities is NaN. *)
Lemma fold_add_both_infinities (xs : list float64) (acc : float64) :
  In PInf xs -> In NInf xs -> fold_left Np.add xs acc = NaN.
Proof.
  revert acc. induction xs as [|x xs IH]; intros acc Hp Hn; [contradiction|].
  cbn [fold_left].
  destruct Hp as [-> | Hp]; [|destruct Hn as [-> | Hn]].
  - destruct Hn as [Hn | Hn]; [discriminate Hn|].
    destruct acc; cbn [Np.add];
      try (now apply fold_add_PInf_NInf); apply fold_add_NaN.
  - destruct acc; cbn [Np.add];
      try (now apply fold_add_NInf_PInf); apply fold_add_NaN.
  - now apply IH.
Qed.

Lemma isum_positive (xs : list Z) :
  xs <> [] -> Forall (fun a => 0 < a) xs -> 0 < isum xs.
Proof.
  intros Hne H. pose proof (isum_lower_bound xs) as Hl.
  assert (H1 : Forall (fun a => 1 <= a) xs)
    by (eapply Forall_impl; [|exact H]; simpl; intros; lia).
  specialize (Hl H1). destruct xs; [contradiction | simpl length in Hl; lia].
Qed.

Lemma isum_map_opp (xs : list Z) : isum (map Z.opp xs) = - isum xs.
Proof.
  induction xs as [|x xs IH]; [reflexivity|].
  cbn [map]. rewrite !isum_cons, IH. lia.
Qed.

Lemma isum_negative (xs : list Z) :
  xs <> [] -> Forall (fun a => a < 0) xs -> isum xs < 0.
Proof.
  intros Hne H.
  assert (Hp : 0 < isum (map Z.opp xs)).
  { apply isum_positive; [destruct xs; [contradiction | discriminate] |].
    apply Forall_forall. intros b Hb. apply in_map_iff in Hb.
    destruct Hb as [a [<- Ha]]. rewrite Forall_forall in H.
    specialize (H a Ha). lia. }
  rewrite isum_map_opp in Hp. lia.
Qed.

(** A non-empty array of sum 0 holds a 0, or a positive and a negative
    element. *)
Lemma isum_zero_cases (xs : list Z) :
  xs <> [] -> isum xs = 0 ->
  In 0 xs \/ ((exists a, In a xs /\ 0 < a) /\ (exists b, In b xs /\ b < 0)).
Proof.
  intros Hne Hsum.
  destruct (Exists_dec (fun a => a = 0) xs (fun a => Z.eq_dec a 0)) as [Hz | Hnz].
  { left. apply Exists_exists in Hz. destruct Hz as [a [Ha ->]]. exact Ha. }
  right.
  destruct (Exists_dec (fun a => 0 < a) xs (fun a => Z_lt_dec 0 a)) as [Hp | Hnp];
    [destruct (Exists_dec (fun a => a < 0) xs (fun a => Z_lt_dec a 0)) as [Hn | Hnn] |].
  - apply Exists_exists in Hp. apply Exists_exists in Hn. split; assumption.
  - exfalso.
    assert (Hall : Forall (fun a => 0 < a) xs).
    { apply Forall_forall. intros a Ha.
      destruct (Z_lt_dec a 0) as [Hlt | Hge].
      - exfalso. apply Hnn. apply Exists_exists. now exists a.
      - destruct (Z.eq_dec a 0) as [-> | Hne0]; [|lia].
        exfalso. apply Hnz. apply Exists_exists. now exists 0. }
    pose proof (isum_positive xs Hne Hall). lia.
  - exfalso.
    assert (Hall : Forall (fun a => a < 0) xs).
    { apply Forall_forall. intros a Ha.
      destruct (Z_lt_dec 0 a) as [Hlt | Hge].
      - exfalso. apply Hnp. apply Exists_exists. now exists a.
      - destruct (Z.eq_dec a 0) as [-> | Hne0]; [|lia].
        exfalso. apply Hnz. apply Exists_exists. now exists 0. }
    pose proof (isum_negative xs Hne Hall). lia.
Qed.

(** The ratio of an area to a unit area 0. *)
Lemma round_div_zero (m : Q) (a : Z) :
  Qzero m = true ->
  Np.round (Np.div (of_int a) (Fin m)) =
  if a =? 0 then NaN else if 0 <? a then PInf else NInf.
Proof.
  intros Hm. unfold Np.div, of_int. rewrite Hm.
  destruct (Z.eqb_spec a 0) as [-> | Hne]; [reflexivity|].
  assert (Hz : Qzero (inject_Z a) = false) by now apply Qzero_inject_Z.
  rewrite Hz. unfold Qpos.
  destruct (Z.ltb_spec 0 a) as [Hlt | Hge].
  - assert (E : Qle_bool (inject_Z a) 0 = false).
    { destruct (Qle_bool (inject_Z a) 0) eqn:E; [|reflexivity].
      apply Qle_bool_iff in E. change 0%Q with (inject_Z 0) in E.
      rewrite <- Zle_Qle in E. lia. }
    now rewrite E.
  - assert (E : Qle_bool (inject_Z a) 0 = true).
    { apply Qle_bool_iff. change 0%Q with (inject_Z 0).
      rewrite <- Zle_Qle. lia. }
    now rewrite E.
Qed.

Lemma Qzero_div_inject (s n : Z) :
  n <> 0 -> Qzero (inject_Z s / inject_Z n) = true -> s = 0.
Proof.
  intros Hn H. unfold Qzero in H. apply Qeq_bool_eq in H.
  destruct (Z.eq_dec s 0) as [-> | Hs]; [reflexivity|]. exfalso.
  assert (Hq : ~ (inject_Z n == 0)%Q).
  { intros E. unfold Qeq in E. simpl in E. lia. }
  assert (E : (inject_Z s == 0 * inject_Z n)%Q).
  { rewrite <- H. field. exact Hq. }
  rewrite Qmult_0_l in E. unfold Qeq in E. simpl in E. lia.
Qed.

Section EstimatorExceptions.

Variable image : Type.
Variable connected_components : image -> list stat_row.

Lemma get_count_finite_mean (V : list Z) (l r : Z) :
  selected l r V <> [] -> Qzero (circle_area l r V) = false ->
  get_count connected_components (Areas V) l r =
  Ok (isum (map (unit_count (circle_area l r V)) V), None).
Proof.
  intros Hsel Hm. rewrite get_count_areas, (mean_nonempty _ Hsel).
  fold (circle_area l r V).
  rewrite (map_ext _ (fun a => of_int (unit_count (circle_area l r V) a)))
    by (intros a; now apply round_div_finite).
  rewrite <- map_map, sum_of_int, to_int_of_int. reflexivity.
Qed.

(** A selection of mean 0 holds a 0 or areas of both signs: the ratios hold
    a NaN or both infinities, and their sum is NaN. *)
Lemma get_count_zero_mean (V : list Z) (l r : Z) :
  selected l r V <> [] -> Qzero (circle_area l r V) = true ->
  get_count connected_components (Areas V) l r = Raise ValueError.
Proof.
  intros Hsel Hm. rewrite get_count_areas, (mean_nonempty _ Hsel).
  fold (circle_area l r V).
  set (ratio := fun a : Z => if a =? 0 then NaN else if 0 <? a then PInf else NInf).
  rewrite (map_ext _ ratio) by (intros a; now apply round_div_zero).
  assert (Hn : Z.of_nat (length (selected l r V)) <> 0)
    by (destruct (selected l r V); [contradiction | simpl; lia]).
  pose proof (Qzero_div_inject _ _ Hn Hm) as Hsum.
  assert (Hin : forall a, In a (selected l r V) -> In (ratio a) (map ratio V)).
  { intros a Ha. apply in_map. apply filter_In in Ha. tauto. }
  assert (Hnan : Np.sum (map ratio V) = NaN).
  { unfold Np.sum.
    destruct (isum_zero_cases _ Hsel Hsum) as [H0 | [[a [Ha Hpos]] [b [Hb Hneg]]]].
    - apply fold_add_NaN_member. exact (Hin 0 H0).
    - apply fold_add_both_infinities.
      + specialize (Hin a Ha). unfold ratio in Hin at 1.
        destruct (Z.eqb_spec a 0); [lia|].
        destruct (Z.ltb_spec 0 a); [exact Hin | lia].
      + specialize (Hin b Hb). unfold ratio in Hin at 1.
        destruct (Z.eqb_spec b 0); [lia|].
        destruct (Z.ltb_spec 0 b); [lia | exact Hin]. }
  now rewrite Hnan.
Qed.

Lemma get_count_outcome (V : list Z) (l r : Z) :
  (exists n, get_count connected_components (Areas V) l r = Ok (n, None)) \/
  get_count connected_components (Areas V) l r = Raise ValueError.
Proof.
  destruct (selected l r V) as [|s S] eqn:E.
  - destruct V as [|a V].
    + left. now exists 0.
    + right. apply get_count_unselected; [discriminate | exact E].
  - assert (Hsel : selected l r V <> []) by (rewrite E; discriminate).
    destruct (Qzero (circle_area l r V)) eqn:Hm.
    + right. now apply get_count_zero_mean.
    + left. eexists. now apply get_count_finite_mean.
Qed.

Lemma try_count_total (V : list Z) (l r : Z) :
  exists n, try_count connected_components V l r = Ok n.
Proof.
  unfold try_count.
  destruct (get_count_outcome V l r) as [[n H] | H]; rewrite H; eauto.
Qed.

Lemma scan_total (V : list Z) (lab : float64) (l : Z) (rs : list Z) :
  forall st, exists st', scan connected_components V lab l rs st = Ok st'.
Proof.
  induction rs as [|r rs IH]; intros st; [now exists st|].
  cbn [scan]. unfold scan_step.
  destruct (try_count_total V l r) as [n Hn]. rewrite Hn. cbn [Py.bind].
  destruct (Np.gt _ _); cbn [Py.bind]; apply IH.
Qed.

(** X1. Whatever the integer areas and the bounds, [get_count] returns a
    count or raises [ValueError], nothing else; it raises exactly when the
    array is not empty and the selected areas sum to 0, as they do when none
    is selected.  The [try] statement of the search, which catches
    [ValueError], therefore always gets a count: the one returned, or 0. *)
Theorem get_count_raises_value_error_only (V : list Z) (l r : Z) :
  (get_count connected_components (Areas V) l r = Raise ValueError <->
   V <> [] /\ isum (selected l r V) = 0) /\
  ((exists n, get_count connected_components (Areas V) l r = Ok (n, None)) \/
   get_count connected_components (Areas V) l r = Raise ValueError) /\
  (exists n, try_count connected_components V l r = Ok n /\
     (get_count connected_components (Areas V) l r = Raise ValueError -> n = 0) /\
     (forall m, get_count connected_components (Areas V) l r = Ok (m, None) -> n = m)).
Proof.
  split; [|split; [apply get_count_outcome|]].
  - destruct V as [|a V'] eqn:EV.
    { split; [discriminate | intros [Hne _]; now contradiction Hne]. }
    rewrite <- EV. assert (Hne : V <> []) by (rewrite EV; discriminate).
    clear EV. destruct (selected l r V) as [|s S] eqn:E.
    + split; [now split|]. intros _.
      apply get_count_unselected; [exact Hne | exact E].
    + assert (Hsel : selected l r V <> []) by (rewrite E; discriminate).
      assert (Hn : Z.of_nat (length (selected l r V)) <> 0)
        by (rewrite E; simpl; lia).
      rewrite <- E.
      destruct (Qzero (circle_area l r V)) eqn:Hm.
      * split.
        -- intros _. split; [exact Hne | exact (Qzero_div_inject _ _ Hn Hm)].
        -- intros _. now apply get_count_zero_mean.
      * split.
        -- intros H. rewrite (get_count_finite_mean V l r Hsel Hm) in H.
           discriminate H.
        -- intros [_ Hz]. exfalso.
           unfold circle_area in Hm. rewrite Hz in Hm.
           destruct (Z.of_nat (length (selected l r V))); discriminate Hm.
  - unfold try_count.
    destruct (get_count_outcome V l r) as [[n H] | H]; rewrite H.
    + exists n. split; [reflexivity|]. split; [discriminate | now intros m [= <-]].
    + exists 0. split; [reflexivity|]. split; [reflexivity | discriminate].
Qed.

Lemma search_some_returns (V : list Z) (lab : float64) (p : Z) :
  exists r m,
    search connected_components V lab (Some p) = Ok (30, r, m) /\
    (In r grid \/ r = p).
Proof.
  rewrite search_unfold.
  destruct (scan_total V lab 30 grid {| min_error := of_int 100000; best_r := Some p |})
    as [st Hst].
  rewrite Hst. cbn [Py.bind].
  apply scan_best_r in Hst. cbn [best_r] in Hst.
  destruct Hst as [Hst | [r [Hin Hst]]]; rewrite Hst.
  - exists p, (min_error st). split; [reflexivity | now right].
  - exists r, (min_error st). split; [reflexivity | now left].
Qed.

Lemma gt_below_bound (m e : float64) (c : Q) :
  Np.gt m e = true -> Np.gt m (Fin c) = false -> Np.gt e (Fin c) = false.
Proof.
  destruct m as [a| | |], e as [b| | |]; cbn [Np.gt]; try discriminate; try reflexivity.
  intros Hab Hac. apply negb_true_iff in Hab. apply negb_false_iff in Hac.
  apply negb_false_iff. apply Qle_bool_iff. apply Qle_bool_iff in Hac.
  apply Qle_trans with a; [|exact Hac].
  apply Qlt_le_weak, Qnot_le_lt. intros Hle. apply Qle_bool_iff in Hle. congruence.
Qed.

(** The running minimum never rises above a bound it starts under. *)
Lemma scan_min_error_bound (V : list Z) (lab : float64) (l : Z) (c : Q)
  (rs : list Z) :
  forall st st',
  Np.gt (min_error st) (Fin c) = false ->
  scan connected_components V lab l rs st = Ok st' ->
  Np.gt (min_error st') (Fin c) = false.
Proof.
  induction rs as [|r rs IH]; intros st st' Hb H.
  - now injection H as <-.
  - cbn [scan] in H. unfold scan_step in H.
    destruct (try_count connected_components V l r) as [found|e]; [|discriminate H].
    cbn [Py.bind] in H.
    destruct (Np.gt (min_error st) (relative_error found lab)) eqn:G;
      cbn [Py.bind] in H; apply IH in H; try exact H.
    + cbn [min_error]. exact (gt_below_bound _ _ _ G Hb).
    + exact Hb.
Qed.

(** X2. Once an image has left a [best_r], the search of every later image
    returns, whatever the areas and the label: with [l = 30], an [r] that is
    a candidate of the grid or the [best_r] it found, and a minimum error
    that is not above 100000. *)
Theorem search_returns_after_first (V : list Z) (lab : float64) (p : Z) :
  exists r m,
    search connected_components V lab (Some p) = Ok (30, r, m) /\
    (In r grid \/ r = p) /\
    Np.gt m (of_int 100000) = false.
Proof.
  rewrite search_unfold.
  destruct (scan_total V lab 30 grid {| min_error := of_int 100000; best_r := Some p |})
    as [st Hst].
  rewrite Hst. cbn [Py.bind].
  assert (Hm : Np.gt (min_error st) (of_int 100000) = false).
  { apply (scan_min_error_bound V lab 30 (inject_Z 100000) grid _ st) in Hst;
      [exact Hst | reflexivity]. }
  apply scan_best_r in Hst. cbn [best_r] in Hst.
  destruct Hst as [Hst | [r [Hin Hst]]]; rewrite Hst.
  - exists p, (min_error st). repeat split; [now right | exact Hm].
  - exists r, (min_error st). repeat split; [now left | exact Hm].
Qed.

End EstimatorExceptions.

(** ** Further properties: the boundary search *)

Lemma rel_err_zero_iff (found : Z) (t : Q) :
  (0 < t)%Q -> ((rel_err found t == 0)%Q <-> (inject_Z found == t)%Q).
Proof.
  intros Ht. unfold rel_err.
  assert (Hne : ~ (t == 0)%Q) by (intros E; rewrite E in Ht; discriminate Ht).
  split.
  - intros H.
    assert (Ha : (Qabs (inject_Z found - t) == 0)%Q).
    { setoid_replace (Qabs (inject_Z found - t))
        with (Qabs (inject_Z found - t) / t * t)%Q by (field; exact Hne).
      rewrite H. ring. }
    assert (Hle : (Qabs (inject_Z found - t) <= 0)%Q) by (rewrite Ha; apply Qle_refl).
    apply Qabs_Qle_condition in Hle. destruct Hle as [H1 H2]. lra.
  - intros H. rewrite H.
    setoid_replace (t - t)%Q with 0%Q by ring.
    change (Qabs 0) with 0%Q. field. exact Hne.
Qed.

Lemma estimate_unselected (V : list Z) (l r : Z) :
  (forall a, In a V -> ~ (l < a <= r)) -> estimate V l r = 0.
Proof.
  intros H. unfold estimate.
  now rewrite (proj2 (selected_nil_iff l r V) H).
Qed.

Section SearchProperties.

Variable image : Type.
Variable connected_components : image -> list stat_row.

(** The loop keeps its state when no candidate has an error below the
    running minimum. *)
Lemma scan_keeps (V : list Z) (lab : float64) (l : Z) (rs : list Z)
  (st : search_state) :
  (forall r n, In r rs -> try_count connected_components V l r = Ok n ->
     Np.gt (min_error st) (relative_error n lab) = false) ->
  scan connected_components V lab l rs st = Ok st.
Proof.
  induction rs as [|r rs IH]; intros H; [reflexivity|].
  cbn [scan]. unfold scan_step.
  destruct (try_count_total image connected_components V l r) as [n Hn].
  rewrite Hn. cbn [Py.bind].
  rewrite (H r n (or_introl eq_refl) Hn). cbn [Py.bind].
  apply IH. intros r' n' Hr'. apply H. now right.
Qed.

(** The loop assigns [best_r] when some candidate has an error below the
    running minimum. *)
Lemma scan_assigns (V : list Z) (lab : float64) (l : Z) (rs : list Z)
  (st : search_state) :
  (exists r n, In r rs /\ try_count connected_components V l r = Ok n /\
     Np.gt (min_error st) (relative_error n lab) = true) ->
  exists st' r',
    scan connected_components V lab l rs st = Ok st' /\
    In r' rs /\ best_r st' = Some r'.
Proof.
  induction rs as [|r rs IH]; intros [r0 [n0 [Hin [Hn0 Hgt]]]]; [contradiction|].
  cbn [scan]. unfold scan_step.
  destruct (try_count_total image connected_components V l r) as [n Hn].
  rewrite Hn. cbn [Py.bind].
  destruct (Np.gt (min_error st) (relative_error n lab)) eqn:G; cbn [Py.bind].
  - destruct (scan_total image connected_components V lab l rs
                {| min_error := relative_error n lab; best_r := Some r |})
      as [st' Hst].
    rewrite Hst.
    destruct (scan_best_r image connected_components V lab l rs _ _ Hst)
      as [Hb | [r' [Hr' Hb]]].
    + exists st', r. split; [reflexivity|]. split; [now left | exact Hb].
    + exists st', r'. split; [reflexivity|]. split; [now right | exact Hb].
  - destruct Hin as [<- | Hin].
    + rewrite Hn in Hn0. injection Hn0 as <-. congruence.
    + destruct IH as [st' [r' [Hst [Hr' Hb]]]].
      { exists r0, n0. auto. }
      exists st', r'. split; [exact Hst|]. split; [now right | exact Hb].
Qed.

Lemma search_assigns (V : list Z) (lab : float64) (prev : option Z) :
  (exists r n, In r grid /\ try_count connected_components V 30 r = Ok n /\
     Np.gt (of_int 100000) (relative_error n lab) = true) ->
  exists r m, search connected_components V lab prev = Ok (30, r, m) /\ In r grid.
Proof.
  intros Hex. rewrite search_unfold.
  destruct (scan_assigns V lab 30 grid
              {| min_error := of_int 100000; best_r := prev |} Hex)
    as [st [r [Hst [Hr Hb]]]].
  rewrite Hst. cbn [Py.bind]. rewrite Hb. eauto.
Qed.

(** X3. Whatever the areas and the label: the search of a first image
    ends in [UnboundLocalError] exactly when no candidate of the grid has a
    computed relative error below 100000, that is, when the comparison
    [100000 > error] fails for the count found at every candidate; on a
    later image the same condition makes it return the r of the image
    before, with 100000 as minimum error. *)
Theorem search_unbound_iff (V : list Z) (lab : float64) :
  let none_below :=
    forall r n, In r grid -> try_count connected_components V 30 r = Ok n ->
      Np.gt (of_int 100000) (relative_error n lab) = false in
  (search connected_components V lab None = Raise UnboundLocalError <-> none_below) /\
  (forall p, none_below ->
     search connected_components V lab (Some p) = Ok (30, p, of_int 100000)).
Proof.
  intros none_below. split; [split|].
  - intros H r n Hr Hn.
    destruct (Np.gt (of_int 100000) (relative_error n lab)) eqn:G; [|reflexivity].
    destruct (search_assigns V lab None) as [r' [m [Hs _]]].
    { exists r, n. auto. }
    rewrite Hs in H. discriminate H.
  - intros H. rewrite search_unfold, scan_keeps; [reflexivity | exact H].
  - intros p H. rewrite search_unfold, scan_keeps; [reflexivity | exact H].
Qed.

(** X4. For areas >= 1 and a positive label, when some candidate has a
    computed relative error below 100000 the search returns [l = 30] and a
    candidate r of the grid with the error computed for the count at r,
    whatever [best_r] the image before left.  That error is below 100000, no
    candidate has an error below it, and every candidate before r has an
    error above it: r is the first candidate of least computed error. *)
Theorem search_least_error_first (V : list Z) (t : Q) (prev : option Z) :
  Forall (fun a => 1 <= a) V -> (0 < t)%Q ->
  (exists r0 n0, In r0 grid /\ try_count connected_components V 30 r0 = Ok n0 /\
     Np.gt (of_int 100000) (relative_error n0 (Fin t)) = true) ->
  exists r n,
    search connected_components V (Fin t) prev
    = Ok (30, r, relative_error n (Fin t)) /\
    In r grid /\
    try_count connected_components V 30 r = Ok n /\
    Np.gt (of_int 100000) (relative_error n (Fin t)) = true /\
    (forall r' n', In r' grid -> try_count connected_components V 30 r' = Ok n' ->
       Np.gt (relative_error n (Fin t)) (relative_error n' (Fin t)) = false) /\
    (forall r' n', In r' grid -> r' < r ->
       try_count connected_components V 30 r' = Ok n' ->
       Np.gt (relative_error n' (Fin t)) (relative_error n (Fin t)) = true).
Proof.
  intros Hpos Ht [r0 [n0 [Hr0 [Hn0 Hlow]]]].
  assert (Hcount : forall r n, try_count connected_components V 30 r = Ok n ->
                               n = estimate V 30 r).
  { intros r n Hn. rewrite (try_count_estimate image connected_components V 30 r Hpos) in Hn.
    now injection Hn. }
  assert (Herr : forall n, relative_error n (Fin t) = Fin (rel_err n t))
    by (intros n; now apply relative_error_finite).
  destruct (search_first_minimum image connected_components V t prev Hpos Ht)
    as [r [Hs [Hin [Hmin Hfirst]]]].
  { exists r0. split; [exact Hr0|]. rewrite <- (Hcount r0 n0 Hn0).
    rewrite Herr in Hlow. now apply gt_finite in Hlow. }
  exists r, (estimate V 30 r). rewrite !Herr.
  split; [exact Hs|]. split; [exact Hin|].
  split; [now apply try_count_estimate|]. split; [|split].
  - apply gt_finite. apply Qle_lt_trans with (rel_err (estimate V 30 r0) t).
    + now apply Hmin.
    + rewrite <- (Hcount r0 n0 Hn0). rewrite Herr in Hlow. now apply gt_finite in Hlow.
  - intros r' n' Hr' Hn'. rewrite Herr, (Hcount r' n' Hn').
    apply gt_finite_false. now apply Hmin.
  - intros r' n' Hr' Hlt Hn'. rewrite Herr, (Hcount r' n' Hn').
    apply gt_finite. apply Qnot_le_lt. intros Hle.
    assert (Heq : (rel_err (estimate V 30 r') t == rel_err (estimate V 30 r) t)%Q)
      by (apply Qle_antisym; [exact Hle | now apply Hmin]).
    specialize (Hfirst r' Hr' Heq). lia.
Qed.

(** X5. For areas >= 1 and a true count n >= 1: if the count found at
    some candidate is n, the search returns the smallest candidate at which
    the count found is n, with a minimum error equal to 0. *)
Theorem search_exact_count (V : list Z) (n : Z) (prev : option Z) :
  Forall (fun a => 1 <= a) V -> 0 < n ->
  (exists r0, In r0 grid /\ try_count connected_components V 30 r0 = Ok n) ->
  exists r m,
    search connected_components V (of_int n) prev = Ok (30, r, Fin m) /\
    (m == 0)%Q /\ In r grid /\
    try_count connected_components V 30 r = Ok n /\
    forall r', In r' grid -> try_count connected_components V 30 r' = Ok n -> r <= r'.
Proof.
  intros Hpos Hn [r0 [Hr0 Hc0]].
  assert (Hcount : forall r, try_count connected_components V 30 r = Ok (estimate V 30 r))
    by (intros r; now apply try_count_estimate).
  assert (He0 : estimate V 30 r0 = n) by (rewrite Hcount in Hc0; now injection Hc0).
  assert (Ht : (0 < inject_Z n)%Q)
    by (change 0%Q with (inject_Z 0); now rewrite <- Zlt_Qlt).
  assert (Hzero : forall f, (rel_err f (inject_Z n) == 0)%Q <-> f = n).
  { intros f. rewrite (rel_err_zero_iff f _ Ht). split.
    - intros E. unfold Qeq in E. simpl in E. lia.
    - now intros ->. }
  destruct (search_first_minimum image connected_components V (inject_Z n) prev Hpos Ht)
    as [r [Hs [Hin [Hmin Hfirst]]]].
  { exists r0. split; [exact Hr0|]. rewrite He0.
    rewrite (proj2 (Hzero n) eq_refl). reflexivity. }
  assert (Hm : (rel_err (estimate V 30 r) (inject_Z n) == 0)%Q).
  { apply Qle_antisym.
    - specialize (Hmin r0 Hr0). rewrite He0, (proj2 (Hzero n) eq_refl) in Hmin.
      exact Hmin.
    - now apply rel_err_nonneg. }
  exists r, (rel_err (estimate V 30 r) (inject_Z n)).
  split; [exact Hs|]. split; [exact Hm|]. split; [exact Hin|].
  split; [rewrite Hcount; f_equal; now apply Hzero|].
  intros r' Hr' Hc'. apply Hfirst; [exact Hr'|].
  rewrite Hm. apply Hzero. rewrite Hcount in Hc'. now injection Hc'.
Qed.

(** X6. For areas >= 1 none of which lies in (30, 990] and a positive
    label, every candidate counts 0 and the search returns r = 40 with a
    minimum error equal to 1, as on the empty vector. *)
Theorem search_noise_only (V : list Z) (t : Q) (prev : option Z) :
  Forall (fun a => 1 <= a) V -> (0 < t)%Q ->
  (forall a, In a V -> ~ (30 < a <= 990)) ->
  (forall r, In r grid -> try_count connected_components V 30 r = Ok 0) /\
  exists m,
    search connected_components V (Fin t) prev = Ok (30, 40, Fin m) /\ (m == 1)%Q.
Proof.
  intros Hpos Ht Hout.
  assert (Hest : forall r, In r grid -> estimate V 30 r = 0).
  { intros r Hr. apply estimate_unselected. intros a Ha Hw.
    apply grid_spec in Hr. destruct Hr as [k [Hk ->]].
    apply (Hout a Ha). lia. }
  split.
  { intros r Hr. rewrite (try_count_estimate image connected_components V 30 r Hpos).
    now rewrite Hest. }
  assert (H40 : In 40 grid) by (apply grid_spec; exists 0; lia).
  destruct (search_first_minimum image connected_components V t prev Hpos Ht)
    as [r [Hs [Hin [_ Hfirst]]]].
  { exists 40. split; [exact H40|]. rewrite (Hest 40 H40), (rel_err_zero t Ht).
    reflexivity. }
  assert (Hr : r = 40).
  { assert (Hle : r <= 40).
    { apply Hfirst; [exact H40|]. now rewrite (Hest 40 H40), (Hest r Hin). }
    apply grid_spec in Hin. destruct Hin as [k [Hk ->]]. lia. }
  subst r. rewrite (Hest 40 H40) in Hs.
  exists (rel_err 0 t). split; [exact Hs | now apply rel_err_zero].
Qed.

End SearchProperties.

(** ** Further properties: the count estimator *)

Lemma isum_repeat (a : Z) (n : nat) : isum (repeat a n) = a * Z.of_nat n.
Proof.
  induction n as [|n IH]; [cbn; lia|].
  cbn [repeat]. rewrite isum_cons, IH. lia.
Qed.

(** The sum of the unit counts is the total area over the unit area, up to
    one half per component. *)
Lemma unit_counts_close (m : Q) (V : list Z) :
  (Qabs (inject_Z (isum (map (unit_count m) V)) - inject_Z (isum V) / m)
   <= inject_Z (Z.of_nat (length V)) * (1 # 2))%Q.
Proof.
  induction V as [|a V IH].
  - cbn. unfold Qdiv. rewrite Qmult_0_l. discriminate.
  - cbn [map length]. rewrite !isum_cons, Nat2Z.inj_succ.
    unfold Z.succ. rewrite !inject_Z_plus. change (inject_Z 1) with 1%Q.
    pose proof (round_half_even_close (inject_Z a / m)) as Ha.
    fold (unit_count m a) in Ha.
    apply Qabs_Qle_condition in Ha. apply Qabs_Qle_condition in IH.
    apply Qabs_Qle_condition.
    setoid_replace ((inject_Z a + inject_Z (isum V)) / m)%Q
      with (inject_Z a / m + inject_Z (isum V) / m)%Q
      by (unfold Qdiv; ring).
    split; lra.
Qed.

Section CountProperties.

Variable image : Type.
Variable connected_components : image -> list stat_row.

(** X7. The count does not change while the upper bound moves over a
    stretch that holds no area: if no element of the array lies in (r, r'],
    [get_count] gives the same result, count or exception, for r and r'. *)
Theorem get_count_plateau (V : list Z) (l r r' : Z) :
  r <= r' ->
  (forall a, In a V -> ~ (r < a <= r')) ->
  get_count connected_components (Areas V) l r
  = get_count connected_components (Areas V) l r'.
Proof.
  intros Hle Hgap. rewrite !get_count_areas.
  assert (E : selected l r V = selected l r' V).
  { unfold selected. apply filter_ext_in. intros a Ha.
    specialize (Hgap a Ha). unfold in_window.
    destruct (Z.ltb_spec l a); [|reflexivity]. cbn [andb].
    destruct (Z.leb_spec a r); destruct (Z.leb_spec a r'); try reflexivity; lia. }
  now rewrite E.
Qed.

(** X8. An array of n >= 1 components of one area a >= 1, with a in the
    window (l, r], counts n. *)
Theorem get_count_equal_areas (a : Z) (n : nat) (l r : Z) :
  (0 < n)%nat -> 1 <= a -> l < a <= r ->
  get_count connected_components (Areas (repeat a n)) l r = Ok (Z.of_nat n, None).
Proof.
  intros Hn Ha Hw.
  assert (Hall : Forall (fun x => 1 <= x) (repeat a n)).
  { apply Forall_forall. intros x Hx. apply repeat_spec in Hx. now subst x. }
  assert (Hsel : selected l r (repeat a n) = repeat a n).
  { unfold selected. apply forallb_filter_id. apply forallb_forall.
    intros x Hx. apply repeat_spec in Hx. subst x. now apply in_window_spec. }
  rewrite get_count_selected; [|exact Hall|].
  2:{ rewrite Hsel. destruct n; [lia | discriminate]. }
  unfold circle_area. rewrite Hsel, isum_repeat, repeat_length.
  rewrite map_repeat.
  assert (Hone : unit_count (inject_Z (a * Z.of_nat n) / inject_Z (Z.of_nat n)) a = 1).
  { unfold unit_count. change 1 with (round_half_even 1).
    apply round_half_even_Qeq. rewrite inject_Z_mult. field. split.
    - intros E. unfold Qeq in E. simpl in E. lia.
    - intros E. unfold Qeq in E. simpl in E. lia. }
  rewrite Hone, isum_repeat. do 2 f_equal. lia.
Qed.

(** X9. For areas >= 1 with an element in the window, the count is the
    total area divided by the mean selected area, up to one half per
    component. *)
Theorem get_count_close_to_ratio (V : list Z) (l r : Z) :
  Forall (fun a => 1 <= a) V ->
  Exists (fun a => l < a <= r) V ->
  exists n,
    get_count connected_components (Areas V) l r = Ok (n, None) /\
    (Qabs (inject_Z n - inject_Z (isum V) / circle_area l r V)
     <= inject_Z (Z.of_nat (length V)) * (1 # 2))%Q.
Proof.
  intros Hpos Hex.
  assert (Hsel : selected l r V <> []).
  { intros E. rewrite selected_nil_iff in E.
    apply Exists_exists in Hex. destruct Hex as [a [Ha Hw]].
    exact (E a Ha Hw). }
  eexists. split; [now apply get_count_selected|].
  apply unit_counts_close.
Qed.

End CountProperties.

(** ** Further properties: the training data *)

Lemma list_set_app_length {A : Type} (xs ys : list A) (y v : A) :
  list_set (xs ++ y :: ys) (length xs) v = xs ++ v :: ys.
Proof.
  induction xs as [|x xs IH]; [reflexivity|].
  cbn [app length list_set]. now rewrite IH.
Qed.

Section TrainingData.

Variable image : Type.
Variable read_im : Z -> image.
Variable connected_components : image -> list stat_row.

(** The count of an image is the count of its Area Vector. *)
Lemma get_count_image (im : image) (l r : Z) :
  get_count connected_components (Image im) l r =
  match get_count connected_components
          (Areas (label_area_of (connected_components im))) l r with
  | Ok (found, _) => Ok (found, Some (connected_components im))
  | Raise e => Raise e
  end.
Proof.
  unfold get_count, get_stats. cbv zeta.
  destruct (to_int _); reflexivity.
Qed.

Lemma brute_force_loop_shape (rows : list (list Z * float64 * Z)) :
  forall (id_ : nat) (prev : option Z) (acc acc' : training_data) (k : nat),
  bounds acc = train_y acc ++ repeat (1, 1) k ->
  length (train_y acc) = id_ ->
  (length rows <= k)%nat ->
  Forall (fun row => length row = 99%nat) (train_x acc) ->
  brute_force_loop read_im connected_components id_ rows prev acc = Ok acc' ->
  bounds acc' = train_y acc' ++ repeat (1, 1) (k - length rows) /\
  Forall (fun row => length row = 99%nat) (train_x acc').
Proof.
  induction rows as [|[[im lab] imid] rows IH];
    intros id_ prev acc acc' k Hb Hlen Hk Hx H.
  - injection H as <-. cbn [length]. rewrite Nat.sub_0_r. now split.
  - cbn [brute_force_loop] in H.
    destruct (search connected_components im lab prev) as [[[l r] m]|e];
      [|discriminate H].
    cbn [Py.bind] in H.
    destruct (get_count connected_components (Image (read_im imid)) 0 1000)
      as [[found stats]|e]; [|discriminate H].
    cbn [Py.bind] in H. cbn [length] in Hk.
    destruct k as [|k]; [lia|].
    apply (IH _ _ _ _ k) in H; cbn [bounds train_y train_x].
    + cbn [length]. exact H.
    + rewrite Hb. cbn [repeat]. rewrite <- Hlen, list_set_app_length.
      now rewrite <- app_assoc.
    + rewrite length_app. cbn [length]. lia.
    + lia.
    + apply Forall_app. split; [exact Hx|].
      constructor; [apply build_features_length | constructor].
Qed.

(** X10. Whenever [brute_force_bounds] returns, [train_x] and [train_y]
    have one row per image of the shortest of the three arguments, every row
    of [train_x] has 99 entries, and [bounds] is [train_y] followed by a pair
    (1, 1) for every image of [images] beyond that length. *)
Theorem brute_force_bounds_shape (images : list (list Z)) (labels : list float64)
  (imageids : list Z) b tx ty :
  brute_force_bounds read_im connected_components images labels imageids
  = Ok (b, tx, ty) ->
  let n := Nat.min (Nat.min (length images) (length labels)) (length imageids) in
  length tx = n /\ length ty = n /\
  Forall (fun row => length row = 99%nat) tx /\
  b = ty ++ repeat (1, 1) (length images - n).
Proof.
  intros H n.
  pose proof (brute_force_bounds_length _ read_im connected_components
                _ _ _ _ _ _ H) as [Hx Hy].
  rewrite !length_combine in Hx, Hy. fold n in Hx, Hy.
  unfold brute_force_bounds in H.
  destruct (brute_force_loop _ _ _ _ _ _) as [acc|e] eqn:E; [|discriminate H].
  cbn [Py.bind] in H. injection H as <- <- <-.
  apply (brute_force_loop_shape _ _ _ _ _ (length images)) in E;
    cbn [bounds train_y train_x length]; try reflexivity.
  - rewrite !length_combine in E. fold n in E. destruct E as [Eb Ex].
    repeat split; assumption.
  - rewrite !length_combine. lia.
  - constructor.
Qed.

(** X11. Whenever [brute_force_bounds] returns, every pair of [train_y]
    has [l = 30] and an [r] among 40, 50, ..., 990. *)
Theorem brute_force_bounds_in_grid (images : list (list Z)) (labels : list float64)
  (imageids : list Z) b tx ty :
  brute_force_bounds read_im connected_components images labels imageids
  = Ok (b, tx, ty) ->
  Forall (fun p => fst p = 30 /\ exists k, 0 <= k < 96 /\ snd p = 40 + 10 * k) ty.
Proof.
  intros H.
  pose proof (brute_force_bounds_pairs _ read_im connected_components
                _ _ _ _ _ _ H) as Hp.
  eapply Forall_impl; [|exact Hp].
  intros p [Hl Hr]. split; [exact Hl | now apply grid_spec].
Qed.

(** X12. An image with components, none of which has an area in
    (0, 1000], stops [brute_force_bounds]: its search returns, and the count
    over (0, 1000] that follows, outside the [try], raises [ValueError]. *)
Theorem brute_force_bounds_value_error (im : list Z) (lab : float64) (imid : Z)
  (images : list (list Z)) (labels : list float64) (imageids : list Z)
  (res : Z * Z * float64) :
  search connected_components im lab None = Ok res ->
  label_area_of (connected_components (read_im imid)) <> [] ->
  (forall a, In a (label_area_of (connected_components (read_im imid))) ->
             ~ (0 < a <= 1000)) ->
  brute_force_bounds read_im connected_components
    (im :: images) (lab :: labels) (imid :: imageids) = Raise ValueError.
Proof.
  intros Hs Hne Hout. unfold brute_force_bounds.
  cbn [combine brute_force_loop]. rewrite Hs. destruct res as [[l r] m].
  cbn [Py.bind]. rewrite get_count_image.
  rewrite get_count_unselected; [reflexivity | exact Hne |].
  now apply selected_nil_iff.
Qed.

End TrainingData.

(** ** Further properties: the table and the features *)

Lemma filter_filter_andb {A : Type} (f g : A -> bool) (xs : list A) :
  filter f (filter g xs) = filter (fun x => g x && f x) xs.
Proof.
  induction xs as [|x xs IH]; [reflexivity|].
  cbn [filter]. destruct (g x); cbn [filter andb]; now rewrite IH.
Qed.

Lemma existsb_eqb_equiv (x : Z) (a b : list Z) :
  (forall i, In i a <-> In i b) ->
  existsb (Z.eqb x) a = existsb (Z.eqb x) b.
Proof.
  intros H. apply Bool.eq_iff_eq_true. rewrite !existsb_exists.
  split; intros [y [Hy E]]; exists y; (split; [now apply H | exact E]).
Qed.

Lemma read_data_frame_all_dropped (csv_file : list label_row) (drop_images : list Z) :
  (forall row, In row csv_file ->
     prop_count row = NaN \/ In (ImageId row) drop_images) ->
  read_data_frame csv_file drop_images = [].
Proof.
  intros H. unfold read_data_frame. rewrite filter_filter_andb.
  induction csv_file as [|row csv IH]; [reflexivity|].
  cbn [filter].
  assert (E : negb (isna (prop_count row))
              && negb (existsb (Z.eqb (ImageId row)) drop_images) = false).
  { destruct (H row (or_introl eq_refl)) as [Hn | Hd].
    - now rewrite Hn.
    - assert (Hex : existsb (Z.eqb (ImageId row)) drop_images = true).
      { apply existsb_exists. exists (ImageId row).
        split; [exact Hd | apply Z.eqb_refl]. }
      rewrite Hex. apply andb_false_r. }
  rewrite E. apply IH. intros r Hr. apply H. now right.
Qed.

Lemma read_data_frame_same_set (csv_file : list label_row) (d1 d2 : list Z) :
  (forall i, In i d1 <-> In i d2) ->
  read_data_frame csv_file d1 = read_data_frame csv_file d2.
Proof.
  intros H. unfold read_data_frame. apply filter_ext. intros row.
  now rewrite (existsb_eqb_equiv _ d1 d2 H).
Qed.

Lemma bin_count_areas (stats : list stat_row) (k : nat) :
  bin_count stats k
  = Z.of_nat (length (filter (in_bin k) (map CC_STAT_AREA stats))).
Proof. unfold bin_count. now rewrite filter_map_length. Qed.

(** X14. When no row of the statistics has an area between 0 and 990,
    the 99 entries of the feature vector are all NaN: the counts are all 0
    and each is divided by their sum. *)
Theorem build_features_all_nan (stats : list stat_row) :
  (forall row, In row stats -> ~ (0 <= CC_STAT_AREA row <= 990)) ->
  length (build_features stats) = 99%nat /\
  Forall (fun x => x = NaN) (build_features stats).
Proof.
  intros Hout. split; [apply build_features_length | now apply build_features_no_bin].
Qed.

(** X15. The feature vector depends on the statistics only through the
    areas, and not on their order: two tables whose columns of areas are
    permutations of each other have the same feature vector. *)
Theorem build_features_permutation (stats stats' : list stat_row) :
  Permutation (map CC_STAT_AREA stats) (map CC_STAT_AREA stats') ->
  build_features stats = build_features stats'.
Proof.
  intros Hperm. rewrite !build_features_bins. cbv zeta.
  assert (E : map (bin_count stats) (seq 0 99) = map (bin_count stats') (seq 0 99)).
  { apply map_ext. intros k. rewrite !bin_count_areas. f_equal.
    apply Permutation_length. now apply filter_permutation. }
  now rewrite E.
Qed.

Section TableProperties.

Variable image : Type.
Variable read_im : Z -> image.
Variable connected_components : image -> list stat_row.

(** X16. The rows handed to [fit] depend on the drop list and on the test
    identifiers only as sets: lists with the same elements, in any order and
    with any repetition, give the same result. *)
Theorem fit_arguments_same_sets (csv_file : list label_row)
  (d1 d2 t1 t2 : list Z) :
  (forall i, In i d1 <-> In i d2) ->
  (forall i, In i t1 <-> In i t2) ->
  fit_arguments read_im connected_components csv_file d1 t1
  = fit_arguments read_im connected_components csv_file d2 t2.
Proof.
  intros Hd Ht. unfold fit_arguments. cbv zeta.
  rewrite (read_data_frame_same_set csv_file d1 d2 Hd).
  assert (E : forall ids, Np.in1d ids t1 = Np.in1d ids t2).
  { intros ids. unfold Np.in1d. apply map_ext. intros a.
    now apply existsb_eqb_equiv. }
  rewrite E. reflexivity.
Qed.

Section EmptyFit.

Variable regressor : Type.
Variable fit : list (list float64) -> list (Z * Z) -> result regressor.


End EmptyFit.

End TableProperties.

(** ** The further properties on the scenarios *)

Lemma search_unbound_iff_witness :
  (search image_stats large_areas (of_int 1) None = Raise UnboundLocalError <->
   forall r n, In r grid -> try_count image_stats large_areas 30 r = Ok n ->
     Np.gt (of_int 100000) (relative_error n (of_int 1)) = false) /\
  (forall p,
     (forall r n, In r grid -> try_count image_stats large_areas 30 r = Ok n ->
        Np.gt (of_int 100000) (relative_error n (of_int 1)) = false) ->
     search image_stats large_areas (of_int 1) (Some p) = Ok (30, p, of_int 100000)).
Proof.
  exact (search_unbound_iff (list stat_row) image_stats large_areas (of_int 1)).
Defined.

Lemma search_least_error_first_witness :
  Forall (fun a => 1 <= a) scenario_areas /\ (0 < 5)%Q /\
  (exists r0 n0, In r0 grid /\ try_count image_stats scenario_areas 30 r0 = Ok n0 /\
     Np.gt (of_int 100000) (relative_error n0 (Fin 5)) = true) /\
  exists r n,
    search image_stats scenario_areas (Fin 5) None
    = Ok (30, r, relative_error n (Fin 5)) /\
    In r grid /\
    try_count image_stats scenario_areas 30 r = Ok n /\
    Np.gt (of_int 100000) (relative_error n (Fin 5)) = true /\
    (forall r' n', In r' grid -> try_count image_stats scenario_areas 30 r' = Ok n' ->
       Np.gt (relative_error n (Fin 5)) (relative_error n' (Fin 5)) = false) /\
    (forall r' n', In r' grid -> r' < r ->
       try_count image_stats scenario_areas 30 r' = Ok n' ->
       Np.gt (relative_error n' (Fin 5)) (relative_error n (Fin 5)) = true).
Proof.
  assert (H : Forall (fun a => 1 <= a) scenario_areas) by (repeat constructor; lia).
  assert (Ht : (0 < 5)%Q) by reflexivity.
  assert (Hex : exists r0 n0, In r0 grid /\
            try_count image_stats scenario_areas 30 r0 = Ok n0 /\
            Np.gt (of_int 100000) (relative_error n0 (Fin 5)) = true).
  { exists 40, 0. split; [apply grid_spec; exists 0; lia|].
    split; vm_compute; reflexivity. }
  split; [exact H|]. split; [exact Ht|]. split; [exact Hex|].
  exact (search_least_error_first (list stat_row) image_stats
           scenario_areas 5 None H Ht Hex).
Defined.

Lemma search_exact_count_witness :
  Forall (fun a => 1 <= a) scenario_areas /\ 0 < 3 /\
  (exists r0, In r0 grid /\ try_count image_stats scenario_areas 30 r0 = Ok 3) /\
  exists r m,
    search image_stats scenario_areas (of_int 3) None = Ok (30, r, Fin m) /\
    (m == 0)%Q /\ In r grid /\
    try_count image_stats scenario_areas 30 r = Ok 3 /\
    forall r', In r' grid -> try_count image_stats scenario_areas 30 r' = Ok 3 -> r <= r'.
Proof.
  assert (H : Forall (fun a => 1 <= a) scenario_areas) by (repeat constructor; lia).
  assert (Hn : 0 < 3) by lia.
  assert (Hex : exists r0, In r0 grid /\
            try_count image_stats scenario_areas 30 r0 = Ok 3).
  { exists 300. split; [apply grid_spec; exists 26; lia | vm_compute; reflexivity]. }
  split; [exact H|]. split; [exact Hn|]. split; [exact Hex|].
  exact (search_exact_count (list stat_row) image_stats
           scenario_areas 3 None H Hn Hex).
Defined.

Lemma search_noise_only_witness :
  Forall (fun a => 1 <= a) noise_areas /\ (0 < 4)%Q /\
  (forall a, In a noise_areas -> ~ (30 < a <= 990)) /\
  (forall r, In r grid -> try_count image_stats noise_areas 30 r = Ok 0) /\
  exists m,
    search image_stats noise_areas (Fin 4) None = Ok (30, 40, Fin m) /\ (m == 1)%Q.
Proof.
  assert (H : Forall (fun a => 1 <= a) noise_areas) by (repeat constructor; lia).
  assert (Ht : (0 < 4)%Q) by reflexivity.
  assert (Hout : forall a, In a noise_areas -> ~ (30 < a <= 990)).
  { intros a [<- | [<- | [<- | []]]]; lia. }
  split; [exact H|]. split; [exact Ht|]. split; [exact Hout|].
  exact (search_noise_only (list stat_row) image_stats noise_areas 4 None H Ht Hout).
Defined.

Lemma get_count_plateau_witness :
  60 <= 290 /\
  (forall a, In a scenario_areas -> ~ (60 < a <= 290)) /\
  get_count image_stats (Areas scenario_areas) 30 60
  = get_count image_stats (Areas scenario_areas) 30 290.
Proof.
  assert (H : 60 <= 290) by lia.
  assert (Hgap : forall a, In a scenario_areas -> ~ (60 < a <= 290)).
  { intros a [<- | [<- | [<- | [<- | []]]]]; lia. }
  split; [exact H|]. split; [exact Hgap|].
  exact (get_count_plateau (list stat_row) image_stats scenario_areas 30 60 290 H Hgap).
Defined.

Lemma get_count_equal_areas_witness :
  (0 < 3)%nat /\ 1 <= 52 /\ 30 < 52 <= 60 /\
  get_count image_stats (Areas (repeat 52 3)) 30 60 = Ok (Z.of_nat 3, None).
Proof.
  assert (Hn : (0 < 3)%nat) by lia.
  assert (Ha : 1 <= 52) by lia.
  assert (Hw : 30 < 52 <= 60) by lia.
  split; [exact Hn|]. split; [exact Ha|]. split; [exact Hw|].
  exact (get_count_equal_areas (list stat_row) image_stats 52 3 30 60 Hn Ha Hw).
Defined.

Lemma get_count_close_to_ratio_witness :
  Forall (fun a => 1 <= a) scenario_areas /\
  Exists (fun a => 30 < a <= 60) scenario_areas /\
  exists n,
    get_count image_stats (Areas scenario_areas) 30 60 = Ok (n, None) /\
    (Qabs (inject_Z n - inject_Z (isum scenario_areas) / circle_area 30 60 scenario_areas)
     <= inject_Z (Z.of_nat (length scenario_areas)) * (1 # 2))%Q.
Proof.
  assert (H : Forall (fun a => 1 <= a) scenario_areas) by (repeat constructor; lia).
  assert (E : Exists (fun a => 30 < a <= 60) scenario_areas)
    by (apply Exists_cons_hd; lia).
  split; [exact H|]. split; [exact E|].
  exact (get_count_close_to_ratio (list stat_row) image_stats scenario_areas 30 60 H E).
Defined.

Lemma brute_force_bounds_shape_witness :
  brute_force_bounds image_store image_stats short_images short_labels short_ids
  = Ok (short_bounds, short_train_x, short_train_y) /\
  (let n := Nat.min (Nat.min (length short_images) (length short_labels))
                    (length short_ids) in
   length short_train_x = n /\ length short_train_y = n /\
   Forall (fun row => length row = 99%nat) short_train_x /\
   short_bounds = short_train_y ++ repeat (1, 1) (length short_images - n)).
Proof.
  assert (H : brute_force_bounds image_store image_stats
                short_images short_labels short_ids
              = Ok (short_bounds, short_train_x, short_train_y))
    by (vm_compute; reflexivity).
  split; [exact H|].
  exact (brute_force_bounds_shape (list stat_row) image_store image_stats
           short_images short_labels short_ids _ _ _ H).
Defined.

Lemma brute_force_bounds_in_grid_witness :
  brute_force_bounds image_store image_stats short_images short_labels short_ids
  = Ok (short_bounds, short_train_x, short_train_y) /\
  Forall (fun p => fst p = 30 /\ exists k, 0 <= k < 96 /\ snd p = 40 + 10 * k)
         short_train_y.
Proof.
  assert (H : brute_force_bounds image_store image_stats
                short_images short_labels short_ids
              = Ok (short_bounds, short_train_x, short_train_y))
    by (vm_compute; reflexivity).
  split; [exact H|].
  exact (brute_force_bounds_in_grid (list stat_row) image_store image_stats
           short_images short_labels short_ids _ _ _ H).
Defined.

Lemma brute_force_bounds_value_error_witness :
  search image_stats [5000] (of_int 1) None = Ok (30, 40, Fin 1) /\
  label_area_of (image_stats (blob_store 7)) <> [] /\
  (forall a, In a (label_area_of (image_stats (blob_store 7))) ->
             ~ (0 < a <= 1000)) /\
  brute_force_bounds blob_store image_stats [[5000]] [of_int 1] [7]
  = Raise ValueError.
Proof.
  assert (Hs : search image_stats [5000] (of_int 1) None = Ok (30, 40, Fin 1))
    by (vm_compute; reflexivity).
  assert (Hne : label_area_of (image_stats (blob_store 7)) <> []) by discriminate.
  assert (Hout : forall a, In a (label_area_of (image_stats (blob_store 7))) ->
                           ~ (0 < a <= 1000)).
  { intros a Ha. simpl in Ha. destruct Ha as [<- | []]. lia. }
  split; [exact Hs|]. split; [exact Hne|]. split; [exact Hout|].
  exact (brute_force_bounds_value_error (list stat_row) blob_store image_stats
           [5000] (of_int 1) 7 [] [] [] _ Hs Hne Hout).
Defined.

Lemma build_features_all_nan_witness :
  (forall row, In row edge_image -> ~ (0 <= CC_STAT_AREA row <= 990)) /\
  length (build_features edge_image) = 99%nat /\
  Forall (fun x => x = NaN) (build_features edge_image).
Proof.
  assert (H : forall row, In row edge_image -> ~ (0 <= CC_STAT_AREA row <= 990)).
  { intros row [<- | [<- | []]]; simpl; lia. }
  split; [exact H|].
  exact (build_features_all_nan edge_image H).
Defined.

Lemma build_features_permutation_witness :
  Permutation (map CC_STAT_AREA scenario_image) (map CC_STAT_AREA shuffled_image) /\
  build_features scenario_image = build_features shuffled_image.
Proof.
  assert (H : Permutation (map CC_STAT_AREA scenario_image)
                          (map CC_STAT_AREA shuffled_image)).
  { cbn [map scenario_image shuffled_image CC_STAT_AREA].
    apply (Permutation_cons_app [300] [52; 50; 55] 743).
    apply (Permutation_cons_app [300; 52] [55] 50).
    apply (Permutation_cons_app [300; 52] [] 55).
    apply perm_swap. }
  split; [exact H|].
  exact (build_features_permutation scenario_image shuffled_image H).
Defined.

Lemma fit_arguments_same_sets_witness :
  (forall i, In i [104; 2] <-> In i [2; 104; 2]) /\
  (forall i, In i [3] <-> In i [3; 3]) /\
  fit_arguments image_store image_stats example_table [104; 2] [3]
  = fit_arguments image_store image_stats example_table [2; 104; 2] [3; 3].
Proof.
  assert (Hd : forall i, In i [104; 2] <-> In i [2; 104; 2])
    by (intros i; simpl; tauto).
  assert (Ht : forall i, In i [3] <-> In i [3; 3]) by (intros i; simpl; tauto).
  split; [exact Hd|]. split; [exact Ht|].
  exact (fit_arguments_same_sets (list stat_row) image_store image_stats
           example_table _ _ _ _ Hd Ht).
Defined.


(** ** Further properties: the precomputed areas and the feature rows *)

Lemma map_snd_combine {A B : Type} (xs : list A) (ys : list B) :
  map snd (combine xs ys) = firstn (length xs) ys.
Proof.
  revert ys. induction xs as [|x xs IH]; intros ys; [reflexivity|].
  destruct ys as [|y ys]; [reflexivity|].
  cbn [combine map snd length firstn]. now rewrite IH.
Qed.

Section Precomputed.

Variable image : Type.
Variable read_im : Z -> image.
Variable connected_components : image -> list stat_row.

(** X18. The areas that [precompute_stats] stores for a row of the table
    give [get_count] the count and the exceptions that the image of the row
    gives it: row [k] of [images] is the Area Vector of the image of
    identifier [k], and the lists have one entry per row. *)
Theorem precompute_stats_count (df : list label_row) (k : nat) (row : label_row)
  (l r : Z) :
  nth_error df k = Some row ->
  let '(images, labels, imageids) :=
    precompute_stats read_im connected_components df in
  length images = length df /\ length labels = length df /\
  length imageids = length df /\
  nth_error labels k = Some (prop_count row) /\
  nth_error imageids k = Some (ImageId row) /\
  exists V,
    nth_error images k = Some V /\
    get_count connected_components (Image (read_im (ImageId row))) l r =
    match get_count connected_components (Areas V) l r with
    | Ok (found, _) =>
        Ok (found, Some (connected_components (read_im (ImageId row))))
    | Raise e => Raise e
    end.
Proof.
  intros Hk. unfold precompute_stats. cbv zeta.
  rewrite !length_map. repeat split.
  - now apply map_nth_error.
  - now apply map_nth_error.
  - exists (label_area_of (connected_components (read_im (ImageId row)))). split.
    + rewrite map_map.
      apply (map_nth_error
               (fun x => snd (get_stats connected_components (read_im (ImageId x))))
               k df Hk).
    + apply get_count_image.
Qed.

Lemma brute_force_loop_features (rows : list (list Z * float64 * Z)) :
  forall (id_ : nat) (prev : option Z) (acc acc' : training_data),
  brute_force_loop read_im connected_components id_ rows prev acc = Ok acc' ->
  train_x acc' =
  train_x acc
  ++ map (fun imid => build_features (connected_components (read_im imid)))
         (map snd rows).
Proof.
  induction rows as [|[[im lab] imid] rows IH]; intros id_ prev acc acc' H.
  - injection H as <-. cbn [map]. now rewrite app_nil_r.
  - cbn [brute_force_loop] in H.
    destruct (search connected_components im lab prev) as [[[l r] m]|e];
      [|discriminate H].
    cbn [Py.bind] in H. rewrite get_count_image in H.
    destruct (get_count connected_components (Areas _) 0 1000)
      as [[found stats]|e]; [|discriminate H].
    cbn [Py.bind] in H. apply IH in H. cbn [train_x] in H.
    rewrite H, <- app_assoc. reflexivity.
Qed.

(** X19. Whenever [brute_force_bounds] returns, row [k] of [train_x] is
    the feature vector of the image read for [imageids[k]]: it depends on
    the identifier alone, and neither on [images] nor on the label nor on
    the bounds found. *)
Theorem brute_force_bounds_features (images : list (list Z))
  (labels : list float64) (imageids : list Z) b tx ty :
  brute_force_bounds read_im connected_components images labels imageids
  = Ok (b, tx, ty) ->
  tx = map (fun imid => build_features (connected_components (read_im imid)))
           (firstn (Nat.min (length images) (length labels)) imageids).
Proof.
  unfold brute_force_bounds. intros H.
  destruct (brute_force_loop _ _ _ _ _ _) as [acc|e] eqn:E; [|discriminate H].
  cbn [Py.bind] in H. injection H as _ <- _.
  apply brute_force_loop_features in E. cbn [train_x app] in E.
  now rewrite E, map_snd_combine, length_combine.
Qed.

End Precomputed.

Lemma precompute_stats_count_witness :
  nth_error example_table 3 = Some (mk_row 3 (of_int 7)) /\
  (let '(images, labels, imageids) :=
     precompute_stats image_store image_stats example_table in
   length images = length example_table /\
   length labels = length example_table /\
   length imageids = length example_table /\
   nth_error labels 3 = Some (prop_count (mk_row 3 (of_int 7))) /\
   nth_error imageids 3 = Some (ImageId (mk_row 3 (of_int 7))) /\
   exists V,
     nth_error images 3 = Some V /\
     get_count image_stats (Image (image_store (ImageId (mk_row 3 (of_int 7))))) 0 1000 =
     match get_count image_stats (Areas V) 0 1000 with
     | Ok (found, _) =>
         Ok (found, Some (image_stats (image_store (ImageId (mk_row 3 (of_int 7))))))
     | Raise e => Raise e
     end).
Proof.
  assert (H : nth_error example_table 3 = Some (mk_row 3 (of_int 7))) by reflexivity.
  split; [exact H|].
  exact (precompute_stats_count (list stat_row) image_store image_stats
           example_table 3 (mk_row 3 (of_int 7)) 0 1000 H).
Defined.

Lemma brute_force_bounds_features_witness :
  brute_force_bounds image_store image_stats short_images short_labels short_ids
  = Ok (short_bounds, short_train_x, short_train_y) /\
  short_train_x =
  map (fun imid => build_features (image_stats (image_store imid)))
      (firstn (Nat.min (length short_images) (length short_labels)) short_ids).
Proof.
  assert (H : brute_force_bounds image_store image_stats
                short_images short_labels short_ids
              = Ok (short_bounds, short_train_x, short_train_y))
    by (vm_compute; reflexivity).
  split; [exact H|].
  exact (brute_force_bounds_features (list stat_row) image_store image_stats
           short_images short_labels short_ids _ _ _ H).
Defined.

(** ** Further properties: when the training data is built *)

Section TrainingReturns.

Variable image : Type.
Variable read_im : Z -> image.
Variable connected_components : image -> list stat_row.

Lemma get_count_image_returns (imid : Z) :
  countable_image read_im connected_components imid ->
  exists found,
    get_count connected_components (Image (read_im imid)) 0 1000
    = Ok (found, Some (connected_components (read_im imid))).
Proof.
  intros [Hpos Hex]. rewrite get_count_image.
  rewrite get_count_selected; [eauto | exact Hpos |].
  intros E. rewrite selected_nil_iff in E.
  apply Exists_exists in Hex. destruct Hex as [a [Ha Hw]]. exact (E a Ha Hw).
Qed.

Lemma brute_force_loop_returns (rows : list (list Z * float64 * Z)) :
  forall (id_ : nat) (p : Z) (acc : training_data),
  (forall row, In row rows ->
     countable_image read_im connected_components (snd row)) ->
  exists acc',
    brute_force_loop read_im connected_components id_ rows (Some p) acc = Ok acc'.
Proof.
  induction rows as [|[[im lab] imid] rows IH]; intros id_ p acc Hrows.
  - now exists acc.
  - cbn [brute_force_loop].
    destruct (search_some_returns image connected_components im lab p)
      as [r [m [Hs _]]].
    rewrite Hs. cbn [Py.bind].
    destruct (get_count_image_returns imid) as [found Hc].
    { apply (Hrows (im, lab, imid)). now left. }
    rewrite Hc. cbn [Py.bind]. apply IH.
    intros row Hrow. apply Hrows. now right.
Qed.

(** X20. [brute_force_bounds] returns when some candidate of the first
    image has a computed relative error below 100000 (the comparison
    [100000 > error] holds for the count found there), and every image read
    for the histogram has areas >= 1 with one of them at most 1000; the
    areas and labels of the later images may be anything. *)
Theorem brute_force_bounds_returns (im0 : list Z) (lab0 : float64) (id0 : Z)
  (images : list (list Z)) (labels : list float64) (imageids : list Z) :
  (exists r0 n0, In r0 grid /\
     try_count connected_components im0 30 r0 = Ok n0 /\
     Np.gt (of_int 100000) (relative_error n0 lab0) = true) ->
  Forall (countable_image read_im connected_components) (id0 :: imageids) ->
  exists b tx ty,
    brute_force_bounds read_im connected_components
      (im0 :: images) (lab0 :: labels) (id0 :: imageids) = Ok (b, tx, ty).
Proof.
  intros Hex Himgs. unfold brute_force_bounds.
  cbn [combine brute_force_loop].
  destruct (search_assigns image connected_components im0 lab0 None Hex)
    as [r [m [Hs _]]].
  rewrite Hs. cbn [Py.bind].
  destruct (get_count_image_returns id0) as [found Hc].
  { now inversion Himgs. }
  rewrite Hc. cbn [Py.bind].
  match goal with
  | |- context [brute_force_loop _ _ ?i ?rows (Some ?p) ?acc] =>
      destruct (brute_force_loop_returns rows i p acc) as [acc' Hacc]
  end.
  { intros [[im lab] imid] Hrow. apply in_combine_r in Hrow. cbn [snd].
    inversion Himgs as [|? ? _ Htl]; subst.
    rewrite Forall_forall in Htl. now apply Htl. }
  rewrite Hacc. cbn [Py.bind]. eauto.
Qed.

End TrainingReturns.

Lemma brute_force_bounds_returns_witness :
  (exists r0 n0, In r0 grid /\
     try_count image_stats scenario_areas 30 r0 = Ok n0 /\
     Np.gt (of_int 100000) (relative_error n0 (Fin 5)) = true) /\
  Forall (countable_image image_store image_stats) [1; 2; 3] /\
  exists b tx ty,
    brute_force_bounds image_store image_stats
      [scenario_areas; large_areas; [45; 9455]]
      [Fin 5; of_int 1; NaN] [1; 2; 3] = Ok (b, tx, ty).
Proof.
  assert (Hex : exists r0 n0, In r0 grid /\
            try_count image_stats scenario_areas 30 r0 = Ok n0 /\
            Np.gt (of_int 100000) (relative_error n0 (Fin 5)) = true).
  { exists 40, 0. split; [apply grid_spec; exists 0; lia|].
    split; vm_compute; reflexivity. }
  assert (Hi : Forall (countable_image image_store image_stats)
                      [1; 2; 3]).
  { repeat constructor; simpl; try lia; apply Exists_cons_hd; lia. }
  split; [exact Hex|]. split; [exact Hi|].
  exact (brute_force_bounds_returns (list stat_row) image_store image_stats
           scenario_areas (Fin 5) 1 [large_areas; [45; 9455]] [of_int 1; NaN] [2; 3]
           Hex Hi).
Defined.
